(** * ConnectCall signaling relay: a shallow embedding of [src/api/signaling.py]

    The development follows the Python module top to bottom:

    - [Py]: the handful of Python built-ins the relay leans on
      ([str.strip], [str.replace], truthiness, [str()], [dict.get]);
    - [Uuid]: [uuid.UUID(hex)] and [str(uuid)];
    - [Models]: the [CallSession] row of [src/api/models.py];
    - [SignalingManager]: the registry of live connections;
    - [Os], [Auth], [Db], [Cors], [Routes]: the environment, and what
      [auth.py], [db.py], the top of [main.py] and the sign-up, contact
      and invite handlers make of it;
    - section [Signaling]: [_get_uuid], [_touch_call_session] and
      [signaling_loop], the WebSocket endpoint of [main.py], then their
      properties;
    - the properties at work on the data of [Sample] and [Deployment].

    Conventions.  A Python [str] is a Rocq [string] whose characters are
    the code points below 256.  A [WebSocket] object is identified by a
    number (its object identity); what the server writes to it is kept in
    a chronological trace.  One pass of the [while True] body is taken as
    one atomic step of the world (coroutines of different sessions
    interleave at frame granularity).  A write to a channel appends to the
    trace; transport failures show up on the reading side. *)

From stdpp Require Import base option gmap list strings pretty.
From Stdlib Require Import ZArith Ascii String Lia.

#[local] Set Warnings "-register-all".
#[local] Open Scope string_scope.
#[local] Open Scope Z_scope.

(* ===================================================================== *)
(** ** Python built-ins *)
(* ===================================================================== *)

Module Py.

(** JSON documents as [json.loads] returns them.  A float is kept as
    its IEEE-754 binary64 bit pattern. *)
Inductive json : Type :=
| JNull
| JBool (b : bool)
| JInt (z : Z)
| JFloat (bits : Z)
| JStr (s : string)
| JList (l : list json)
| JDict (d : gmap string json).

(** [bool(v)]: [None], [False], zero, and empty strings and containers
    are falsy.  Both signed zeros are falsy: only the 63 low bits
    count. *)
Definition truthy (v : json) : bool :=
  match v with
  | JNull => false
  | JBool b => b
  | JInt z => negb (z =? 0)
  | JFloat bits => negb (Z.land bits (Z.ones 63) =? 0)
  | JStr s => negb (String.eqb s "")
  | JList l => match l with [] => false | _ => true end
  | JDict d => negb (bool_decide (d = ∅))
  end.

(** [a or b] *)
Definition or_ (a b : json) : json := if truthy a then a else b.

(** [d.get(k)]: the value, or [None] when the key is missing. *)
Definition get (d : gmap string json) (k : string) : json :=
  default JNull (d !! k).

(** [str.isspace] on one character (code points below 256). *)
Definition isspace (c : ascii) : bool :=
  let n := Z.of_N (N_of_ascii c) in
  ((9 <=? n) && (n <=? 13)) || ((28 <=? n) && (n <=? 32))
  || (n =? 133) || (n =? 160).

Fixpoint lstrip_chars (drop : ascii → bool) (s : list ascii) : list ascii :=
  match s with
  | c :: s' => if drop c then lstrip_chars drop s' else s
  | [] => []
  end.

Definition strip_chars (drop : ascii → bool) (s : string) : string :=
  string_of_list_ascii
    (rev (lstrip_chars drop (rev (lstrip_chars drop (list_ascii_of_string s))))).

(** [s.strip()] *)
Definition strip (s : string) : string := strip_chars isspace s.

(** [s.strip(chars)] *)
Definition strip_set (chars : string) (s : string) : string :=
  strip_chars (λ c, bool_decide (c ∈ list_ascii_of_string chars)) s.

(** [s.replace(old, new)] for a non-empty [old]: occurrences are
    replaced left to right without overlap.  [skip] counts the
    characters of a match still to be consumed. *)
Fixpoint replace_from (old new : string) (skip : nat) (s : string) : string :=
  match s with
  | EmptyString => EmptyString
  | String c s' =>
      match skip with
      | S k => replace_from old new k s'
      | O =>
          if String.prefix old s
          then new ++ replace_from old new (Nat.pred (String.length old)) s'
          else String c (replace_from old new O s')
      end
  end.

Definition replace (old new s : string) : string := replace_from old new O s.

(** All blank: what [strip] reduces to the empty string. *)
Definition blank (s : string) : bool := forallb isspace (list_ascii_of_string s).

Section Str.
(** [repr] of the values that are not scalars (floats, lists,
    dicts): the relay only passes it on, so it is left open. *)
Variable repr : json → string.

(** [str(v)] *)
Definition str (v : json) : string :=
  match v with
  | JNull => "None"
  | JBool true => "True"
  | JBool false => "False"
  | JInt z => pretty z
  | JStr s => s
  | _ => repr v
  end.
End Str.

(** [s.startswith(prefix)] *)
Definition startswith (s pre : string) : bool := String.prefix pre s.

(** [s.replace(old, new, count)] for a non-empty [old]: at most [count]
    occurrences are replaced, left to right. *)
Fixpoint replace_count_from (old new : string) (count skip : nat) (s : string)
  : string :=
  match s with
  | EmptyString => EmptyString
  | String c s' =>
      match skip with
      | S k => replace_count_from old new count k s'
      | O =>
          match count with
          | O => s
          | S n =>
              if String.prefix old s
              then new ++ replace_count_from old new n (Nat.pred (String.length old)) s'
              else String c (replace_count_from old new count O s')
          end
      end
  end.

Definition replace_count (old new : string) (count : nat) (s : string) : string :=
  replace_count_from old new count O s.

(** [s.split(sep)] for a one-character [sep]: every occurrence cuts,
    empty pieces are kept, and the empty string gives one empty piece. *)
Fixpoint split (sep : ascii) (s : string) : list string :=
  match s with
  | EmptyString => [EmptyString]
  | String c s' =>
      if Ascii.eqb c sep then EmptyString :: split sep s'
      else
        match split sep s' with
        | piece :: pieces => String c piece :: pieces
        | [] => [String c EmptyString]
        end
  end.

(** [list(dict.fromkeys(l))]: the first occurrence of each element, in
    order.  [seen] holds the keys already in the dict. *)
Fixpoint fromkeys_from (seen l : list string) : list string :=
  match l with
  | [] => []
  | x :: l' =>
      if bool_decide (x ∈ seen) then fromkeys_from seen l'
      else x :: fromkeys_from (x :: seen) l'
  end.

Definition fromkeys (l : list string) : list string := fromkeys_from [] l.

(** [str.lower] on one character (code points below 256): the ASCII
    capitals and the accented capitals, the multiplication sign apart. *)
Definition lower_char (c : ascii) : ascii :=
  let n := Z.of_N (N_of_ascii c) in
  if ((65 <=? n) && (n <=? 90))
     || ((192 <=? n) && (n <=? 222) && negb (n =? 215))
  then ascii_of_N (Z.to_N (n + 32))
  else c.

(** [s.lower()] *)
Fixpoint lower (s : string) : string :=
  match s with
  | EmptyString => EmptyString
  | String c s' => String (lower_char c) (lower s')
  end.

End Py.

Import Py.

(* ===================================================================== *)
(** ** [uuid.UUID] *)
(* ===================================================================== *)

Module Uuid.

(** A UUID is the 128-bit integer it wraps; equality and hashing of
    [uuid.UUID] go through it. *)
Definition UUID : Type := Z.

Definition hex_digit (n : Z) : ascii :=
  ascii_of_N (Z.to_N (if n <? 10 then 48 + n else 87 + n)).

(** ['%0<digits>x' % n], most significant digit first. *)
Fixpoint hex_pad (digits : nat) (n : Z) : string :=
  match digits with
  | O => EmptyString
  | S k => String (hex_digit (Z.land (Z.shiftr n (4 * Z.of_nat k)) 15)) (hex_pad k n)
  end.

(** [str(u)]: 8-4-4-4-12 lower-case hexadecimal digits. *)
Definition to_str (u : UUID) : string :=
  let hex := hex_pad 32 u in
  String.substring 0 8 hex ++ "-" ++ String.substring 8 4 hex ++ "-"
  ++ String.substring 12 4 hex ++ "-" ++ String.substring 16 4 hex ++ "-"
  ++ String.substring 20 12 hex.

(** The value of a string of plain hexadecimal digits: the everyday
    fragment of [int(s, 16)]. *)
Definition hex_value_of (c : ascii) : option Z :=
  let n := Z.of_N (N_of_ascii c) in
  if (48 <=? n) && (n <=? 57) then Some (n - 48)
  else if (97 <=? n) && (n <=? 102) then Some (n - 87)
  else if (65 <=? n) && (n <=? 70) then Some (n - 55)
  else None.

Fixpoint hex_digits (acc : Z) (s : string) : option Z :=
  match s with
  | EmptyString => Some acc
  | String c s' =>
      match hex_value_of c with
      | Some d => hex_digits (16 * acc + d) s'
      | None => None
      end
  end.

Definition plain_int16 (s : string) : option Z :=
  match s with
  | EmptyString => None
  | _ => hex_digits 0 s
  end.

Section Parse.
(** [int(s, 16)], [None] when it raises [ValueError]. *)
Variable int16 : string → option Z.

(** [uuid.UUID(hex)], [None] when it raises. *)
Definition of_hex (hex : string) : option UUID :=
  let hex := replace "uuid:" "" (replace "urn:" "" hex) in
  let hex := replace "-" "" (strip_set "{}" hex) in
  if negb (Nat.eqb (String.length hex) 32) then None
  else
    match int16 hex with
    | None => None
    | Some int =>
        if (0 <=? int) && (int <? Z.shiftl 1 128) then Some int else None
    end.
End Parse.

End Uuid.

Abbreviation UUID := Uuid.UUID.

(* ===================================================================== *)
(** ** [src/api/models.py]: the call-session row *)
(* ===================================================================== *)

Module Models.

(** Timestamps are clock readings.  The primary key [id] (a fresh
    [uuid4]) is not read by the relay: a row is identified by its
    position in the table. *)
Record CallSession : Type := {
  room_id : string;
  caller_user_id : UUID;
  callee_user_id : UUID;
  started_at : Z;
  ended_at : option Z;
  active : bool;
  last_event_type : option string;
  last_event_at : option Z;
  last_error : option string;
}.

(** The row of [users]. *)
Record User : Type := {
  id : UUID;
  email : string;
  password_hash : string;
  created_at : Z;
}.

Module Contacts.
(** The row of [contacts]. *)
Record Contact : Type := {
  id : UUID;
  owner_user_id : UUID;
  contact_user_id : UUID;
  name : option string;
  created_at : Z;
}.
End Contacts.

Module Invites.
(** The row of [invites]. *)
Record Invite : Type := {
  id : UUID;
  from_user_id : UUID;
  to_user_id : UUID;
  status : string;
  created_at : Z;
  responded_at : option Z;
}.
End Invites.

End Models.

Abbreviation CallSession := Models.CallSession.

(* ===================================================================== *)
(** ** The world the sessions share *)
(* ===================================================================== *)

(** A [WebSocket] object, by identity. *)
Definition chan : Type := nat.

(** A JSON object, as a Python [dict]. *)
Abbreviation dict := (gmap string json).

Record World : Type := {
  (** [manager._connections] *)
  _connections : gmap UUID chan;
  (** every [send_text(json.dumps(m))] so far, oldest first *)
  sent : list (chan * dict);
  (** the committed rows of [call_sessions] *)
  call_sessions : list CallSession;
}.

Definition with_connections (w : World) (c : gmap UUID chan) : World :=
  {| _connections := c; sent := sent w; call_sessions := call_sessions w |}.

Definition with_call_sessions (w : World) (t : list CallSession) : World :=
  {| _connections := _connections w; sent := sent w; call_sessions := t |}.

(** [await websocket.send_text(json.dumps(message))] *)
Definition send_text (w : World) (websocket : chan) (message : dict) : World :=
  {| _connections := _connections w;
     sent := (sent w ++ [(websocket, message)])%list;
     call_sessions := call_sessions w |}.

Definition empty_world : World :=
  {| _connections := ∅; sent := []; call_sessions := [] |}.

(* ===================================================================== *)
(** ** [SignalingManager] *)
(* ===================================================================== *)

Module SignalingManager.

(** [self._connections[user_id] = websocket] *)
Definition connect (w : World) (user_id : UUID) (websocket : chan) : World :=
  with_connections w (<[user_id := websocket]> (_connections w)).

(** [self._connections.pop(user_id, None)] *)
Definition disconnect (w : World) (user_id : UUID) : World :=
  with_connections w (delete user_id (_connections w)).

(** [ws = self._connections.get(user_id)]; [False] when there is
    none, otherwise the message is written and [True] returned. *)
Definition send_to_user (w : World) (user_id : UUID) (message : dict)
  : World * bool :=
  match _connections w !! user_id with
  | None => (w, false)
  | Some ws => (send_text w ws message, true)
  end.

End SignalingManager.

Module manager := SignalingManager.

(* ===================================================================== *)
(** ** The process environment *)
(* ===================================================================== *)

Module Os.

(** [os.getenv(key)] *)
Definition getenv (environ : gmap string string) (key : string) : option string :=
  environ !! key.

(** [os.getenv(key) or fallback]: an unset and an empty variable both
    give the fallback. *)
Definition getenv_or (environ : gmap string string) (key fallback : string) : string :=
  match getenv environ key with
  | Some v => if String.eqb v "" then fallback else v
  | None => fallback
  end.

(** [os.getenv(key, fallback)]: only an unset variable gives the
    fallback. *)
Definition getenv_default (environ : gmap string string) (key fallback : string)
  : string :=
  default fallback (getenv environ key).

End Os.

(** What a function outside the relay loop raises. *)
Inductive raised : Type :=
| RuntimeError (message : string)
| HTTPException (status_code : Z) (detail : string)
| MultipleResultsFound          (* [scalar_one_or_none] on several rows *)
| DataError                     (* a value too long for its column *)
| IntegrityError.               (* a key or constraint of the schema broken *)

Inductive result (A : Type) : Type :=
| Ok (a : A)
| Raised (r : raised).

Arguments Ok {A} a.
Arguments Raised {A} r.

(* ===================================================================== *)
(** ** [src/api/auth.py] *)
(* ===================================================================== *)

Module Auth.

Definition HTTP_401_UNAUTHORIZED : Z := 401.

Definition _get_secret_key (environ : gmap string string) : result string :=
  let secret := Py.strip (Os.getenv_or environ "JWT_SECRET" "") in
  if String.eqb secret "" then Raised (RuntimeError "JWT_SECRET is not configured.")
  else Ok secret.

Definition _get_algorithm (environ : gmap string string) : string :=
  Py.strip (Os.getenv_or environ "JWT_ALGORITHM" "HS256").

Section Decode.
(** [jwt.decode(token, key, algorithms)] at the time of the call: the
    claims, or [None] when it raises [JWTError] (bad signature, expired,
    malformed). *)
Variable jwt_decode : string → string → list string → option (gmap string json).
Variable int16 : string → option Z.
Variable repr : json → string.

(** The arguments of [jwt.decode] are evaluated first, so a missing
    secret raises before anything is decoded; [RuntimeError] and the
    [HTTPException] for a missing [sub] pass the [except] clause. *)
Definition _decode_token (environ : gmap string string) (token : string)
  : result UUID :=
  match _get_secret_key environ with
  | Raised r => Raised r
  | Ok key =>
      match jwt_decode token key [_get_algorithm environ] with
      | None => Raised (HTTPException HTTP_401_UNAUTHORIZED "Invalid or expired token.")
      | Some payload =>
          let sub := Py.get payload "sub" in
          if negb (Py.truthy sub) then
            Raised (HTTPException HTTP_401_UNAUTHORIZED "Invalid token.")
          else
            match Uuid.of_hex int16 (Py.str repr sub) with
            | Some user_id => Ok user_id
            | None =>
                Raised (HTTPException HTTP_401_UNAUTHORIZED "Invalid or expired token.")
            end
      end
  end.

(** [db.get(User, user_id)] *)
Definition db_get_user (users : list Models.User) (user_id : UUID)
  : option Models.User :=
  snd <$> list_find (λ u, Models.id u = user_id) users.

(** [credentials] is the bearer token of the request, if it has one. *)
Definition get_current_user (environ : gmap string string)
    (users : list Models.User) (credentials : option string) : result Models.User :=
  match credentials with
  | None => Raised (HTTPException HTTP_401_UNAUTHORIZED "Not authenticated.")
  | Some token =>
      if String.eqb token "" then
        Raised (HTTPException HTTP_401_UNAUTHORIZED "Not authenticated.")
      else
        match _decode_token environ token with
        | Raised r => Raised r
        | Ok user_id =>
            match db_get_user users user_id with
            | None => Raised (HTTPException HTTP_401_UNAUTHORIZED "User not found.")
            | Some user => Ok user
            end
        end
  end.

End Decode.

End Auth.

(* ===================================================================== *)
(** ** [src/api/db.py] *)
(* ===================================================================== *)

Module Db.

Definition _build_postgres_url (environ : gmap string string) : result string :=
  let raw_url := Py.strip (Os.getenv_or environ "POSTGRES_URL" "") in
  if negb (String.eqb raw_url "") then
    if Py.startswith raw_url "postgresql+psycopg://"
       || Py.startswith raw_url "postgresql://" then Ok raw_url
    else if Py.startswith raw_url "postgres://" then
      Ok (Py.replace_count "postgres://" "postgresql://" 1 raw_url)
    else Ok raw_url
  else
    let user := Os.getenv_default environ "POSTGRES_USER" "" in
    let password := Os.getenv_default environ "POSTGRES_PASSWORD" "" in
    let db := Os.getenv_default environ "POSTGRES_DB" "" in
    let port := Os.getenv_default environ "POSTGRES_PORT" "5432" in
    let host := "localhost" in
    if String.eqb user "" || String.eqb password "" || String.eqb db "" then
      Raised (RuntimeError
                ("PostgreSQL environment is not configured. Please set POSTGRES_URL "
                 ++ "or POSTGRES_USER/POSTGRES_PASSWORD/POSTGRES_DB."))
    else
      Ok ("postgresql+psycopg://" ++ user ++ ":" ++ password ++ "@" ++ host
          ++ ":" ++ port ++ "/" ++ db).

End Db.

(* ===================================================================== *)
(** ** [src/api/main.py]: the allowed origins *)
(* ===================================================================== *)

Module Cors.

(** The list built at import time, before [dict.fromkeys]. *)
Definition allow_origins (environ : gmap string string) : list string :=
  let frontend_origin := Py.strip (Os.getenv_or environ "FRONTEND_ORIGIN" "") in
  let frontend_origins := Py.strip (Os.getenv_or environ "FRONTEND_ORIGINS" "") in
  let allow_origins := [] in
  let allow_origins :=
    if negb (String.eqb frontend_origin "") then (allow_origins ++ [frontend_origin])%list
    else allow_origins in
  let allow_origins :=
    if negb (String.eqb frontend_origins "") then
      (allow_origins
       ++ omap (λ o, if negb (String.eqb (Py.strip o) "") then Some (Py.strip o) else None)
            (Py.split "," frontend_origins))%list
    else allow_origins in
  let allow_origins :=
    (allow_origins ++ ["http://localhost:3000"; "http://127.0.0.1:3000"])%list in
  match allow_origins with
  | [] => ["*"]
  | _ => allow_origins
  end.

(** What [CORSMiddleware] is given: [list(dict.fromkeys(allow_origins))]. *)
Definition middleware_origins (environ : gmap string string) : list string :=
  Py.fromkeys (allow_origins environ).

End Cors.

(* ===================================================================== *)
(** ** [src/api/routes_auth.py], [routes_contacts.py], [routes_invites.py] *)
(* ===================================================================== *)

(** The handlers that look rows up by address: [signup],
    [create_contact] and [create_invite].  A payload has passed its
    request schema; a handler is given the [uuid4] and the clock reading
    that the new row takes as defaults.  Reading the tables does not
    fail; writing goes through [commit], which holds the new state
    against the keys, constraints and column sizes of [models.py]. *)
Module Routes.

Abbreviation User := Models.User.
Abbreviation Contact := Models.Contacts.Contact.
Abbreviation Invite := Models.Invites.Invite.

(** The three tables the handlers work on. *)
Record Database : Type := {
  users : list User;
  contacts : list Contact;
  invites : list Invite;
}.

Definition bind {A B} (r : result A) (k : A → result B) : result B :=
  match r with
  | Ok a => k a
  | Raised e => Raised e
  end.

(** [result.scalar_one_or_none()] *)
Definition scalar_one_or_none {A} (rows : list A) : result (option A) :=
  match rows with
  | [] => Ok None
  | [row] => Ok (Some row)
  | _ => Raised MultipleResultsFound
  end.

(** *** What [models.py] declares, as checked when a row is written *)

(** [String(n)] columns. *)
Definition fits (n : nat) (s : string) : bool := Nat.leb (String.length s) n.

Definition user_ids (db : Database) : list UUID := Models.id <$> users db.

(** [users]: primary key, unique [email], [String(320)], [String(255)]. *)
Definition users_data_ok (us : list User) : bool :=
  forallb (λ u, fits 320 (Models.email u) && fits 255 (Models.password_hash u)) us.

Definition users_keys_ok (us : list User) : bool :=
  bool_decide (NoDup (Models.id <$> us)) && bool_decide (NoDup (Models.email <$> us)).

(** [contacts]: primary key, both foreign keys, [uq_contacts_owner_contact],
    [String(120)]. *)
Definition contact_pair (c : Contact) : UUID * UUID :=
  (Models.Contacts.owner_user_id c, Models.Contacts.contact_user_id c).

Definition contacts_data_ok (cs : list Contact) : bool :=
  forallb (λ c, match Models.Contacts.name c with
                | Some n => fits 120 n
                | None => true
                end) cs.

Definition contacts_keys_ok (us : list User) (cs : list Contact) : bool :=
  bool_decide (NoDup (Models.Contacts.id <$> cs))
  && bool_decide (NoDup (contact_pair <$> cs))
  && forallb (λ c, bool_decide (Models.Contacts.owner_user_id c ∈ Models.id <$> us)
                   && bool_decide (Models.Contacts.contact_user_id c ∈ Models.id <$> us))
       cs.

(** [invites]: primary key, both foreign keys, [uq_invites_from_to],
    [String(20)]. *)
Definition invite_pair (i : Invite) : UUID * UUID :=
  (Models.Invites.from_user_id i, Models.Invites.to_user_id i).

Definition invites_data_ok (ivs : list Invite) : bool :=
  forallb (λ i, fits 20 (Models.Invites.status i)) ivs.

Definition invites_keys_ok (us : list User) (ivs : list Invite) : bool :=
  bool_decide (NoDup (Models.Invites.id <$> ivs))
  && bool_decide (NoDup (invite_pair <$> ivs))
  && forallb (λ i, bool_decide (Models.Invites.from_user_id i ∈ Models.id <$> us)
                   && bool_decide (Models.Invites.to_user_id i ∈ Models.id <$> us))
       ivs.

(** [db.commit()]: the new state is kept if the schema accepts it. *)
Definition commit (db : Database) : result Database :=
  if negb (users_data_ok (users db) && contacts_data_ok (contacts db)
           && invites_data_ok (invites db))
  then Raised DataError
  else if negb (users_keys_ok (users db)
                && contacts_keys_ok (users db) (contacts db)
                && invites_keys_ok (users db) (invites db))
  then Raised IntegrityError
  else Ok db.

(** [select(User).where(User.email == email)] *)
Definition users_by_email (db : Database) (email : string) : list User :=
  filter (λ u, Models.email u = email) (users db).

(** [select(Contact).where(and_(owner_user_id == .., contact_user_id == ..))] *)
Definition contacts_of_pair (db : Database) (owner contact : UUID) : list Contact :=
  filter (λ c, contact_pair c = (owner, contact)) (contacts db).

(** [select(Invite).where(and_(from_user_id == .., to_user_id == ..))] *)
Definition invites_of_pair (db : Database) (sender target : UUID) : list Invite :=
  filter (λ i, invite_pair i = (sender, target)) (invites db).

(** *** [signup]

    [hashed] is what [hash_password(payload.password)] returned, [fresh]
    the [uuid4] drawn for the row and [now] the clock. *)
Definition signup (db : Database) (payload_email hashed : string)
    (fresh : UUID) (now : Z) : result (Database * User) :=
  let email := Py.lower (Py.strip payload_email) in
  bind (scalar_one_or_none (users_by_email db email)) (λ existing,
    match existing with
    | Some _ => Raised (HTTPException 409 "Email already registered.")
    | None =>
        let user := {| Models.id := fresh; Models.email := email;
                       Models.password_hash := hashed;
                       Models.created_at := now |} in
        bind (commit {| users := users db ++ [user];
                        contacts := contacts db;
                        invites := invites db |})
          (λ db', Ok (db', user))
    end).

(** *** [create_contact] *)
Definition create_contact (db : Database) (payload_name : option string)
    (payload_handle : string) (current_user : User) (fresh : UUID) (now : Z)
  : result (Database * Contact) :=
  let handle := Py.lower (Py.strip payload_handle) in
  bind (scalar_one_or_none (users_by_email db handle)) (λ contact_user,
    match contact_user with
    | None => Raised (HTTPException 404 "User not found for given handle (email).")
    | Some contact_user =>
        if bool_decide (Models.id contact_user = Models.id current_user) then
          Raised (HTTPException 400 "Cannot add yourself as a contact.")
        else
          bind (scalar_one_or_none
                  (contacts_of_pair db (Models.id current_user) (Models.id contact_user)))
            (λ existing,
              match existing with
              | Some _ => Raised (HTTPException 409 "Contact already exists.")
              | None =>
                  let contact :=
                    {| Models.Contacts.id := fresh;
                       Models.Contacts.owner_user_id := Models.id current_user;
                       Models.Contacts.contact_user_id := Models.id contact_user;
                       Models.Contacts.name := payload_name;
                       Models.Contacts.created_at := now |} in
                  bind (commit {| users := users db;
                                  contacts := contacts db ++ [contact];
                                  invites := invites db |})
                    (λ db', Ok (db', contact))
              end)
    end).

(** *** [create_invite] *)
Definition create_invite (db : Database) (payload_to_email : string)
    (current_user : User) (fresh : UUID) (now : Z) : result (Database * Invite) :=
  let to_email := Py.lower (Py.strip payload_to_email) in
  bind (scalar_one_or_none (users_by_email db to_email)) (λ to_user,
    match to_user with
    | None => Raised (HTTPException 404 "Target user not found.")
    | Some to_user =>
        if bool_decide (Models.id to_user = Models.id current_user) then
          Raised (HTTPException 400 "Cannot invite yourself.")
        else
          bind (scalar_one_or_none
                  (contacts_of_pair db (Models.id current_user) (Models.id to_user)))
            (λ already,
              match already with
              | Some _ => Raised (HTTPException 409 "Already contacts.")
              | None =>
                  bind (scalar_one_or_none
                          (invites_of_pair db (Models.id current_user) (Models.id to_user)))
                    (λ existing,
                      let pending :=
                        match existing with
                        | Some inv => String.eqb (Models.Invites.status inv) "pending"
                        | None => false
                        end in
                      if pending then
                        Raised (HTTPException 409 "Invite already pending.")
                      else
                        let inv :=
                          {| Models.Invites.id := fresh;
                             Models.Invites.from_user_id := Models.id current_user;
                             Models.Invites.to_user_id := Models.id to_user;
                             Models.Invites.status := "pending";
                             Models.Invites.created_at := now;
                             Models.Invites.responded_at := None |} in
                        bind (commit {| users := users db;
                                        contacts := contacts db;
                                        invites := invites db ++ [inv] |})
                          (λ db', Ok (db', inv)))
              end)
    end).

End Routes.

(* ===================================================================== *)
(** ** What a session reads *)
(* ===================================================================== *)

(** A text frame, told apart by what [json.loads] makes of it. *)
Inductive text_frame : Type :=
| NotJson (raw : string)      (* [json.loads(raw)] raises *)
| JsonText (v : json).        (* [json.loads(raw)] returns [v] *)

Definition json_loads (raw : text_frame) : option json :=
  match raw with
  | NotJson _ => None
  | JsonText v => Some v
  end.

(** Exceptions that cross the loop. *)
Inductive exn : Type :=
| WebSocketDisconnect
| AttributeError
| OtherError.

(** The outcome of [await websocket.receive_text()]. *)
Inductive received : Type :=
| Text (raw : text_frame)
| Disconnected                (* raises [WebSocketDisconnect] *)
| Failed.                     (* raises anything else *)

(** The persistence call that raises, if one does. *)
Inductive db_call : Type := Query | Commit.

#[global] Instance db_call_eq_dec : EqDecision db_call.
Proof. solve_decision. Defined.

(** The surroundings of one pass of the loop: the clock read by
    [datetime.utcnow()] and the behaviour of the database. *)
Record env : Type := {
  now : Z;
  db_raises : option db_call;
}.

(** How one pass of the loop body ends. *)
Inductive outcome : Type :=
| Continue (w : World)
| Raise (e : exn) (w : World).

(** How [signaling_loop] stands after a script of receptions. *)
Inductive status : Type :=
| Reading                     (* the loop awaits the next frame *)
| Returned                    (* left through [except WebSocketDisconnect] *)
| Propagated (e : exn).       (* the exception goes on to the caller *)

(* ===================================================================== *)
(** ** Sample data *)
(* ===================================================================== *)

Module Sample.

Definition alice : UUID := 0x11111111111111111111111111111111.
Definition bob : UUID := 0x22222222222222222222222222222222.
Definition carol : UUID := 0x33333333333333333333333333333333.

(** A stand-in for [repr]: the samples hold scalars only. *)
Definition no_repr (_ : json) : string := "?".

Definition calm : env := {| now := 1000; db_raises := None |}.

(** [{type:"offer", to:B, roomId:"r1", sdp:"X"}] with a forged [from]. *)
Definition offer : dict :=
  {[ "type" := JStr "offer"; "to" := JStr (Uuid.to_str bob);
     "roomId" := JStr "r1"; "sdp" := JStr "X"; "from" := JStr "mallory" ]}.

(** [{type:"answer", to:C, roomId:"r1", sdp:"Y"}] *)
Definition answer_to_carol : dict :=
  {[ "type" := JStr "answer"; "to" := JStr (Uuid.to_str carol);
     "roomId" := JStr "r1"; "sdp" := JStr "Y" ]}.

(** [{type:"bogus", to:B, roomId:"r1"}] *)
Definition bogus : dict :=
  {[ "type" := JStr "bogus"; "to" := JStr (Uuid.to_str bob);
     "roomId" := JStr "r1" ]}.

(** [{type:"offer", roomId:"r1"}] *)
Definition no_to : dict := {[ "type" := JStr "offer"; "roomId" := JStr "r1" ]}.

(** [{type:"candidate", to:B, roomId:"  "}] *)
Definition blank_room : dict :=
  {[ "type" := JStr "candidate"; "to" := JStr (Uuid.to_str bob);
     "roomId" := JStr "  " ]}.

(** [{type:"offer", to:A, roomId:"loop"}], sent by A herself *)
Definition to_self : dict :=
  {[ "type" := JStr "offer"; "to" := JStr (Uuid.to_str alice);
     "roomId" := JStr "loop" ]}.

Definition ongoing : CallSession :=
  {| Models.room_id := "r1";
     Models.caller_user_id := alice;
     Models.callee_user_id := bob;
     Models.started_at := 900;
     Models.ended_at := None;
     Models.active := true;
     Models.last_event_type := Some "offer";
     Models.last_event_at := Some 900;
     Models.last_error := None |}.

End Sample.

(* ===================================================================== *)
(** ** A sample deployment *)
(* ===================================================================== *)

Module Deployment.

Definition environ : gmap string string :=
  {[ "JWT_SECRET" := " s3cret ";
     "POSTGRES_URL" := "postgres://app:pw@db:5432/calls";
     "FRONTEND_ORIGINS" := "https://a.example, ,https://b.example,https://a.example" ]}.

(** No secret, a blank algorithm and no database URL. *)
Definition bare_environ : gmap string string :=
  {[ "JWT_ALGORITHM" := "  "; "POSTGRES_USER" := "app" ]}.

(** A stand-in for [jwt.decode]: a token is [jwt.] followed by its
    subject and decodes under the key [s3cret] only. *)
Definition jwt_decode (token key : string) (algorithms : list string)
  : option (gmap string json) :=
  if String.eqb key "s3cret" && String.prefix "jwt." token then
    Some {[ "sub" := JStr (String.substring 4 (String.length token - 4) token) ]}
  else None.

Definition users : list Models.User :=
  [ {| Models.id := Sample.alice; Models.email := "alice@example.org";
       Models.password_hash := "$2b$12$a"; Models.created_at := 10 |};
    {| Models.id := Sample.bob; Models.email := "bob@example.org";
       Models.password_hash := "$2b$12$b"; Models.created_at := 20 |} ].

Definition alice_token : string := "jwt.11111111-1111-1111-1111-111111111111".

(** A token for Carol, who has no row in [users]. *)
Definition carol_token : string := "jwt.33333333-3333-3333-3333-333333333333".

(** A call that has ended. *)
Definition ended : CallSession :=
  {| Models.room_id := "r0";
     Models.caller_user_id := Sample.bob;
     Models.callee_user_id := Sample.alice;
     Models.started_at := 100;
     Models.ended_at := Some 200;
     Models.active := false;
     Models.last_event_type := Some "hangup";
     Models.last_event_at := Some 200;
     Models.last_error := None |}.

(** Alice once invited Bob, who accepted; the contact rows are gone. *)
Definition accepted_invite : Models.Invites.Invite :=
  {| Models.Invites.id := 0xaaaa;
     Models.Invites.from_user_id := Sample.alice;
     Models.Invites.to_user_id := Sample.bob;
     Models.Invites.status := "accepted";
     Models.Invites.created_at := 30;
     Models.Invites.responded_at := Some 40 |}.

Definition accounts : Routes.Database :=
  {| Routes.users := users; Routes.contacts := [];
     Routes.invites := [accepted_invite] |}.

Definition alice_row : Models.User :=
  {| Models.id := Sample.alice; Models.email := "alice@example.org";
     Models.password_hash := "$2b$12$a"; Models.created_at := 10 |}.

Definition bob_row : Models.User :=
  {| Models.id := Sample.bob; Models.email := "bob@example.org";
     Models.password_hash := "$2b$12$b"; Models.created_at := 20 |}.

End Deployment.

(* ===================================================================== *)
(** ** [src/api/signaling.py] *)
(* ===================================================================== *)

Section Signaling.

(** The two library functions left open: [int(s, 16)] inside
    [uuid.UUID], and [repr] of non-scalar JSON values inside [str]. *)
Variable int16 : string → option Z.
Variable repr : json → string.

Definition _get_uuid (value : json) : option UUID :=
  Uuid.of_hex int16 (Py.str repr value).

(** *** [_touch_call_session] *)

Definition is_active_in (room_id : string) (s : CallSession) : Prop :=
  Models.room_id s = room_id ∧ Models.active s = true.

#[global] Instance is_active_in_dec room_id s : Decision (is_active_in room_id s).
Proof. unfold is_active_in. apply _. Defined.

(** [db.query(CallSession).filter(room_id == .., active is True).first()]:
    the first matching row and its position, or nothing; [None] at
    the outer level when the query raises. *)
Definition query_first_active (e : env) (db : list CallSession) (room_id : string)
  : option (option (nat * CallSession)) :=
  if bool_decide (db_raises e = Some Query) then None
  else Some (list_find (is_active_in room_id) db).

(** [db.commit()] *)
Definition commit (e : env) (db : list CallSession) : option (list CallSession) :=
  if bool_decide (db_raises e = Some Commit) then None else Some db.

Definition new_session (e : env) (room_id : string) (caller_id callee_id : UUID)
    (event_type : string) : CallSession :=
  {| Models.room_id := room_id;
     Models.caller_user_id := caller_id;
     Models.callee_user_id := callee_id;
     Models.started_at := now e;
     Models.ended_at := None;
     Models.active := true;
     Models.last_event_type := Some event_type;
     Models.last_event_at := Some (now e);
     Models.last_error := None |}.

Definition touched (e : env) (existing : CallSession) (event_type : string)
  : CallSession :=
  let hangup := String.eqb event_type "hangup" in
  {| Models.room_id := Models.room_id existing;
     Models.caller_user_id := Models.caller_user_id existing;
     Models.callee_user_id := Models.callee_user_id existing;
     Models.started_at := Models.started_at existing;
     Models.ended_at := if hangup then Some (now e) else Models.ended_at existing;
     Models.active := if hangup then false else Models.active existing;
     Models.last_event_type := Some event_type;
     Models.last_event_at := Some (now e);
     Models.last_error := Models.last_error existing |}.

Definition _touch_call_session (e : env) (db : list CallSession)
    (room_id : string) (caller_id callee_id : UUID) (event_type : string)
  : option (list CallSession) :=
  existing ← query_first_active e db room_id;
  match existing with
  | None => Some (db ++ [new_session e room_id caller_id callee_id event_type])%list
  | Some (i, existing) => Some (<[i := touched e existing event_type]> db)
  end.

(** The [try: _touch_call_session(..); db.commit()] block with its
    [except Exception: db.rollback()]. *)
Definition touch_best_effort (e : env) (db : list CallSession)
    (room_id : string) (caller_id callee_id : UUID) (event_type : string)
  : list CallSession :=
  default db (_touch_call_session e db room_id caller_id callee_id event_type
              ≫= commit e).

(** *** [signaling_loop] *)

Definition recognized : list string := ["offer"; "answer"; "candidate"; "hangup"].

Definition msg_type_of (msg : dict) : string :=
  Py.strip (Py.str repr (Py.or_ (Py.get msg "type") (JStr ""))).

Definition to_id_of (msg : dict) : option UUID :=
  _get_uuid (Py.get msg "to").

Definition room_id_of (msg : dict) : string :=
  let s := Py.strip (Py.str repr (Py.or_ (Py.get msg "roomId") (JStr ""))) in
  if String.eqb s "" then "default" else s.

Definition error_unknown_type : dict :=
  {[ "type" := JStr "error"; "detail" := JStr "Unknown message type." ]}.

Definition error_invalid_to : dict :=
  {[ "type" := JStr "error"; "detail" := JStr "Missing/invalid 'to' user id." ]}.

Definition peer_offline (to_id : UUID) (room_id : string) : dict :=
  {[ "type" := JStr "peer_offline";
     "to" := JStr (Uuid.to_str to_id);
     "roomId" := JStr room_id ]}.

(** [forward = {k: v for k, v in msg.items() if k not in {"to"}}],
    then the two assignments. *)
Definition forward_of (msg : dict) (current_user_id : UUID) (room_id : string)
  : dict :=
  let forward := filter (λ kv : string * json, kv.1 ∉ ["to"]) msg in
  let forward := <["from" := JStr (Uuid.to_str current_user_id)]> forward in
  <["roomId" := JStr room_id]> forward.

(** The body of [while True] after a frame has been read. *)
Definition loop_body (w : World) (websocket : chan) (current_user_id : UUID)
    (raw : text_frame) (e : env) : outcome :=
  match json_loads raw with
  | None => Continue w
  | Some (JDict msg) =>
      let msg_type := msg_type_of msg in
      let to_id := to_id_of msg in
      let room_id := room_id_of msg in
      if negb (bool_decide (msg_type ∈ recognized)) then
        Continue (send_text w websocket error_unknown_type)
      else
        match to_id with
        | None => Continue (send_text w websocket error_invalid_to)
        | Some to_id =>
            let w := with_call_sessions w
                       (touch_best_effort e (call_sessions w) room_id
                          current_user_id to_id msg_type) in
            let forward := forward_of msg current_user_id room_id in
            let '(w, delivered) := manager.send_to_user w to_id forward in
            if negb delivered then
              Continue (send_text w websocket (peer_offline to_id room_id))
            else Continue w
        end
  | Some _ => Raise AttributeError w      (* [msg.get] on a non-dict *)
  end.

(** One pass of [while True]: read, then the body. *)
Definition pass (w : World) (websocket : chan) (current_user_id : UUID)
    (r : received) (e : env) : outcome :=
  match r with
  | Text raw => loop_body w websocket current_user_id raw e
  | Disconnected => Raise WebSocketDisconnect w
  | Failed => Raise OtherError w
  end.

(** [except WebSocketDisconnect: pass] and
    [finally: await manager.disconnect(current_user_id)]. *)
Definition leave (w : World) (current_user_id : UUID) (ex : exn) : World * status :=
  (manager.disconnect w current_user_id,
   match ex with
   | WebSocketDisconnect => Returned
   | _ => Propagated ex
   end).

(** The [while True] loop run against a script of receptions;
    [Continue] when the script is used up and the loop is reading. *)
Fixpoint while_true (w : World) (websocket : chan) (current_user_id : UUID)
    (script : list (received * env)) : outcome :=
  match script with
  | [] => Continue w
  | (r, e) :: script' =>
      match pass w websocket current_user_id r e with
      | Continue w' => while_true w' websocket current_user_id script'
      | Raise ex w' => Raise ex w'
      end
  end.

Definition signaling_loop (w : World) (websocket : chan) (current_user_id : UUID)
    (script : list (received * env)) : World * status :=
  let w := manager.connect w current_user_id websocket in
  match while_true w websocket current_user_id script with
  | Continue w' => (w', Reading)
  | Raise ex w' => leave w' current_user_id ex
  end.

(** *** Several sessions side by side *)

Inductive event : Type :=
| Accepted (websocket : chan) (current_user_id : UUID)
    (* [signaling_loop] entered: [manager.connect] *)
| Received (websocket : chan) (current_user_id : UUID) (r : received) (e : env).
    (* that session's next pass of the loop *)

(** One pass of a session together with the way out it may take. *)
Definition iteration (w : World) (websocket : chan) (current_user_id : UUID)
    (r : received) (e : env) : World * status :=
  match pass w websocket current_user_id r e with
  | Continue w' => (w', Reading)
  | Raise ex w' => leave w' current_user_id ex
  end.

Definition handle (w : World) (ev : event) : World :=
  match ev with
  | Accepted websocket current_user_id =>
      manager.connect w current_user_id websocket
  | Received websocket current_user_id r e =>
      (iteration w websocket current_user_id r e).1
  end.

(** The script decides who reads when; it is expected to read only on
    sessions it has opened and that have not left. *)
Definition run (w : World) (evs : list event) : World := foldl handle w evs.


(** The world after the best-effort bookkeeping of a routed message. *)
Definition bookkept (w : World) (u to_id : UUID) (msg : dict) (e : env) : World :=
  with_call_sessions w
    (touch_best_effort e (call_sessions w) (room_id_of msg) u to_id (msg_type_of msg)).

(** At most one active row per room. *)
Definition one_active_per_room (db : list CallSession) : Prop :=
  ∀ i j s1 s2,
    db !! i = Some s1 → db !! j = Some s2 →
    Models.active s1 = true → Models.active s2 = true →
    Models.room_id s1 = Models.room_id s2 → i = j.

(** *** [src/api/main.py]: the WebSocket endpoint *)

Variable jwt_decode : string → string → list string → option dict.

(** [_decode_token] raising [HTTPException] gives [None]; a
    [RuntimeError] goes through.  [users] is the table [db.get] reads. *)
Definition _token_to_user_id (environ : gmap string string)
    (users : list Models.User) (token : string) : result (option UUID) :=
  match Auth._decode_token jwt_decode int16 repr environ token with
  | Raised (HTTPException _ _) => Ok None
  | Raised r => Raised r
  | Ok user_id =>
      match Auth.db_get_user users user_id with
      | None => Ok None
      | Some _ => Ok (Some user_id)
      end
  end.

Definition WS_1008_POLICY_VIOLATION : Z := 1008.

(** How the endpoint ends for one connection. *)
Inductive endpoint_end : Type :=
| Closed (code : Z)             (* [websocket.close(code=..)], then return *)
| Looped (st : status)          (* [signaling_loop] was entered *)
| Errored (r : raised).         (* an exception before the loop *)

(** [websocket_signaling]: the socket is accepted, then the token is
    checked before the loop is entered. *)
Definition websocket_signaling (environ : gmap string string)
    (users : list Models.User) (w : World) (websocket : chan) (token : string)
    (script : list (received * env)) : World * endpoint_end :=
  if String.eqb token "" then (w, Closed WS_1008_POLICY_VIOLATION)
  else
    match _token_to_user_id environ users token with
    | Raised r => (w, Errored r)
    | Ok None => (w, Closed WS_1008_POLICY_VIOLATION)
    | Ok (Some user_id) =>
        let '(w', st) := signaling_loop w websocket user_id script in
        (w', Looped st)
    end.

(** Characters of a rendered UUID. *)
Definition uuid_char (c : ascii) : Prop :=
  c = "-"%char ∨ ∃ n, 0 ≤ n < 16 ∧ c = Uuid.hex_digit n.

(** [int(s, 16)] reads a string of plain hexadecimal digits as the
    number they spell. *)
Definition reads_plain_hex : Prop :=
  ∀ s v, Uuid.plain_int16 s = Some v → int16 s = Some v.

(** How a row may differ from what it was: never in its room, parties
    or start, and not at all once it is inactive. *)
Definition evolves (s s' : CallSession) : Prop :=
  Models.room_id s' = Models.room_id s
  ∧ Models.caller_user_id s' = Models.caller_user_id s
  ∧ Models.callee_user_id s' = Models.callee_user_id s
  ∧ Models.started_at s' = Models.started_at s
  ∧ (Models.active s = false → s' = s).

(* =================================================================== *)
(** ** Properties *)
(* =================================================================== *)

(** *** Python helpers *)

Lemma lstrip_chars_all drop s :
  forallb drop s = true → lstrip_chars drop s = [].
Proof.
  induction s as [|c s IH]; simpl; [done|].
  intros [Hc Hs]%andb_true_iff. rewrite Hc. auto.
Qed.

Lemma strip_blank s : Py.blank s = true → Py.strip s = "".
Proof.
  unfold Py.blank, Py.strip, strip_chars. intros H.
  by rewrite (lstrip_chars_all _ _ H).
Qed.

Lemma get_missing (msg : dict) k : msg !! k = None → Py.get msg k = JNull.
Proof. unfold Py.get. by intros ->. Qed.

(** [uuid.UUID("None")] raises whatever [int] does: the length check
    comes first. *)
Lemma _get_uuid_None : _get_uuid JNull = None.
Proof. reflexivity. Qed.

Lemma to_id_of_missing (msg : dict) : msg !! "to" = None → to_id_of msg = None.
Proof. unfold to_id_of. intros ->%get_missing. apply _get_uuid_None. Qed.

Lemma room_id_of_missing (msg : dict) :
  msg !! "roomId" = None → room_id_of msg = "default".
Proof. unfold room_id_of. by intros ->%get_missing. Qed.

(** [null], [false], [0], [""], [[]] and [{}] count as no room at all. *)
Lemma room_id_of_falsy (msg : dict) :
  Py.truthy (Py.get msg "roomId") = false → room_id_of msg = "default".
Proof. unfold room_id_of, Py.or_. by intros ->. Qed.

Lemma room_id_of_blank (msg : dict) s :
  msg !! "roomId" = Some (JStr s) → Py.blank s = true → room_id_of msg = "default".
Proof.
  unfold room_id_of, Py.get, Py.or_. intros -> Hs. simpl.
  destruct (String.eqb_spec s "") as [->|Hne]; simpl; [done|].
  by rewrite (strip_blank _ Hs).
Qed.

(** A room given as a non-empty string without blanks around it is
    taken as it is; so is a type spelled exactly. *)
Lemma room_id_of_trimmed (msg : dict) r :
  msg !! "roomId" = Some (JStr r) → Py.strip r = r → r ≠ "" →
  room_id_of msg = r.
Proof.
  unfold room_id_of, Py.get, Py.or_. intros -> Hs Hr. simpl.
  destruct (String.eqb_spec r "") as [->|_]; [done|]. simpl. rewrite Hs.
  by destruct (String.eqb_spec r "").
Qed.

Lemma msg_type_of_literal (msg : dict) t :
  msg !! "type" = Some (JStr t) → t ∈ recognized → msg_type_of msg = t.
Proof.
  unfold msg_type_of, Py.get, Py.or_, recognized. intros -> Ht. simpl.
  repeat (apply elem_of_cons in Ht as [->|Ht]; [reflexivity|]).
  by apply elem_of_nil in Ht.
Qed.

(** *** The forwarded envelope *)

Lemma forward_of_delete (msg : dict) u room :
  forward_of msg u room
  = <["roomId" := JStr room]> (<["from" := JStr (Uuid.to_str u)]> (delete "to" msg)).
Proof.
  unfold forward_of. do 2 f_equal. apply map_eq. intros k.
  destruct (decide (k = "to")) as [->|Hk].
  - rewrite lookup_delete_eq. apply map_lookup_filter_None. right.
    intros x _ Hin. apply Hin. simpl. by left.
  - rewrite lookup_delete_ne by done.
    destruct (msg !! k) as [x|] eqn:Hx.
    + apply map_lookup_filter_Some. split; [done|]. simpl.
      by intros ->%list_elem_of_singleton.
    + apply map_lookup_filter_None. by left.
Qed.

Lemma forward_of_from (msg : dict) u room :
  forward_of msg u room !! "from" = Some (JStr (Uuid.to_str u)).
Proof.
  rewrite forward_of_delete, lookup_insert_ne by done. apply lookup_insert_eq.
Qed.

Lemma forward_of_roomId (msg : dict) u room :
  forward_of msg u room !! "roomId" = Some (JStr room).
Proof. rewrite forward_of_delete. apply lookup_insert_eq. Qed.

Lemma forward_of_to (msg : dict) u room : forward_of msg u room !! "to" = None.
Proof.
  rewrite forward_of_delete, !lookup_insert_ne by done. apply lookup_delete_eq.
Qed.

Lemma forward_of_other (msg : dict) u room k :
  k ∉ ["to"; "from"; "roomId"] → forward_of msg u room !! k = msg !! k.
Proof.
  intros Hk. rewrite forward_of_delete.
  rewrite !lookup_insert_ne, lookup_delete_ne; [done|..];
    intros <-; apply Hk; apply (bool_decide_unpack _); by vm_compute.
Qed.

(** *** The loop, case by case *)

Lemma pass_not_json w ws u raw e :
  pass w ws u (Text (NotJson raw)) e = Continue w.
Proof. reflexivity. Qed.

Lemma iteration_not_json w ws u raw e :
  iteration w ws u (Text (NotJson raw)) e = (w, Reading).
Proof. reflexivity. Qed.

Lemma pass_unknown_type w ws u (msg : dict) e :
  msg_type_of msg ∉ recognized →
  pass w ws u (Text (JsonText (JDict msg))) e
  = Continue (send_text w ws error_unknown_type).
Proof.
  intros H. simpl. unfold loop_body. simpl.
  by rewrite bool_decide_eq_false_2.
Qed.

Lemma pass_invalid_to w ws u (msg : dict) e :
  msg_type_of msg ∈ recognized → to_id_of msg = None →
  pass w ws u (Text (JsonText (JDict msg))) e
  = Continue (send_text w ws error_invalid_to).
Proof.
  intros H Hto. simpl. unfold loop_body. simpl.
  by rewrite bool_decide_eq_true_2, Hto.
Qed.

Lemma pass_routed w ws u (msg : dict) e to_id :
  msg_type_of msg ∈ recognized → to_id_of msg = Some to_id →
  pass w ws u (Text (JsonText (JDict msg))) e
  = Continue
      (match _connections w !! to_id with
       | Some peer =>
           send_text (bookkept w u to_id msg e) peer
             (forward_of msg u (room_id_of msg))
       | None =>
           send_text (bookkept w u to_id msg e) ws
             (peer_offline to_id (room_id_of msg))
       end).
Proof.
  intros H Hto. simpl. unfold loop_body. simpl.
  rewrite bool_decide_eq_true_2, Hto by done.
  unfold manager.send_to_user, bookkept. simpl.
  by destruct (_connections w !! to_id).
Qed.

Lemma iteration_continue w ws u r e w' :
  pass w ws u r e = Continue w' → iteration w ws u r e = (w', Reading).
Proof. unfold iteration. by intros ->. Qed.

Lemma leave_unregisters w u ex :
  _connections (leave w u ex).1 !! u = None ∧ (leave w u ex).2 ≠ Reading.
Proof.
  split; [apply lookup_delete_eq|]. by destruct ex.
Qed.

(** [iteration] is the next pass of a session that is reading. *)
Lemma while_true_snoc w ws u script r e :
  while_true w ws u (script ++ [(r, e)])%list
  = match while_true w ws u script with
    | Continue w' => pass w' ws u r e
    | Raise ex w' => Raise ex w'
    end.
Proof.
  revert w. induction script as [|[r0 e0] script IH]; intros w; simpl.
  - by destruct (pass w ws u r e).
  - destruct (pass w ws u r0 e0); [apply IH|done].
Qed.

Lemma signaling_loop_next w ws u script r e w' :
  signaling_loop w ws u script = (w', Reading) →
  signaling_loop w ws u (script ++ [(r, e)])%list = iteration w' ws u r e.
Proof.
  unfold signaling_loop, iteration. rewrite while_true_snoc.
  destruct (while_true _ ws u script) as [w1|ex w1].
  - by intros [= ->].
  - intros Hleave. pose proof (leave_unregisters w1 u ex) as [_ Hst].
    rewrite Hleave in Hst. by destruct Hst.
Qed.

(** *** The registry *)

Lemma connect_lookup w u ws :
  _connections (manager.connect w u ws) !! u = Some ws.
Proof. apply lookup_insert_eq. Qed.

Lemma disconnect_lookup w u :
  _connections (manager.disconnect w u) !! u = None.
Proof. apply lookup_delete_eq. Qed.

Lemma disconnect_absent w u :
  _connections w !! u = None → manager.disconnect w u = w.
Proof.
  intros H. destruct w as [c s t]. unfold manager.disconnect, with_connections.
  simpl in *. f_equal. by apply delete_id.
Qed.

(** C1 (as amended).  [disconnect] pops the entry of the user whatever
    channel it holds: once [u] has registered [c1] and then [c2], the
    disconnect of the session that owns [c1] removes the entry, so a
    later lookup of [u] finds nothing and [send_to_user] returns
    [False] without writing anywhere. *)
Theorem stale_disconnect_removes_entry (w : World) (u : UUID) (c1 c2 : chan) (e : env) :
  let w' := run w [Accepted c1 u; Accepted c2 u; Received c1 u Disconnected e] in
  _connections w' !! u = None
  ∧ ∀ m, manager.send_to_user w' u m = (w', false).
Proof.
  intros w'.
  assert (H : _connections w' !! u = None) by apply lookup_delete_eq.
  split; [done|]. intros m. unfold manager.send_to_user. by rewrite H.
Qed.

(** C4 (evaluation at the failing frame).  The frame [[]] is valid
    JSON but not an object: [msg.get] raises [AttributeError] outside
    the inner [try], the session is unregistered by [finally] and the
    exception goes on to the caller. *)
Theorem json_array_frame_ends_session (w : World) (ws : chan) (u : UUID) (e : env) :
  iteration w ws u (Text (JsonText (JList []))) e
  = (manager.disconnect w u, Propagated AttributeError)
  ∧ signaling_loop w ws u [(Text (JsonText (JList [])), e)]
    = (manager.disconnect (manager.connect w u ws) u, Propagated AttributeError)
  ∧ _connections (manager.disconnect (manager.connect w u ws) u) !! u = None.
Proof. repeat split. apply lookup_delete_eq. Qed.

(** A JSON value that is not an object ends the session in the same
    way, whatever it is. *)
Lemma non_object_frame_raises w ws u v e :
  (∀ d, v ≠ JDict d) →
  pass w ws u (Text (JsonText v)) e = Raise AttributeError w.
Proof. intros H. destruct v; try reflexivity. by destruct (H d). Qed.


(** C6.  [send_to_user] writes the message to the stored channel and
    returns [True] when the user is registered, and returns [False]
    leaving everything as it was when the user is absent.  In the loop,
    a routed message whose target is absent makes exactly one write,
    the [peer_offline] notice on the sender's channel. *)
Theorem send_to_user_delivery (w : World) (user_id : UUID) (message : dict) :
  (∀ ws, _connections w !! user_id = Some ws →
     manager.send_to_user w user_id message = (send_text w ws message, true))
  ∧ (_connections w !! user_id = None →
     manager.send_to_user w user_id message = (w, false))
  ∧ (∀ ws u msg e,
       msg_type_of msg ∈ recognized → to_id_of msg = Some user_id →
       _connections w !! user_id = None →
       ∃ w', iteration w ws u (Text (JsonText (JDict msg))) e = (w', Reading)
             ∧ sent w' = (sent w ++ [(ws, peer_offline user_id (room_id_of msg))])%list
             ∧ _connections w' = _connections w).
Proof.
  unfold manager.send_to_user. split; [|split].
  - by intros ws ->.
  - by intros ->.
  - intros ws u msg e Ht Hto Habs. eexists. split.
    + apply iteration_continue. rewrite (pass_routed _ _ _ _ _ _ Ht Hto), Habs.
      reflexivity.
    + done.
Qed.

(** C8.  However [signaling_loop] stops reading (a graceful
    disconnect, a failed read, or an exception raised by the loop
    body), the caller's identity is no longer in the registry. *)
Theorem exit_always_unregisters (w w' : World) (ws : chan) (u : UUID)
    (script : list (received * env)) (st : status) :
  signaling_loop w ws u script = (w', st) → st ≠ Reading →
  _connections w' !! u = None.
Proof.
  unfold signaling_loop.
  destruct (while_true _ ws u script) as [w1|ex w1].
  - intros [= <- <-] H. by destruct H.
  - intros Heq _. pose proof (leave_unregisters w1 u ex) as [H _].
    by rewrite Heq in H.
Qed.

(** The three ways out are all there: each of them ends the loop at
    the pass where it occurs. *)
Lemma exit_paths w ws u e :
  iteration w ws u Disconnected e = (manager.disconnect w u, Returned)
  ∧ iteration w ws u Failed e = (manager.disconnect w u, Propagated OtherError)
  ∧ iteration w ws u (Text (JsonText JNull)) e
    = (manager.disconnect w u, Propagated AttributeError).
Proof. done. Qed.

(** *** Relaying *)

(** C2.  With [B] registered on channel [wsB], a message from [A]
    whose extracted type is recognized, whose [to] resolves to [B] and
    whose extracted room is [r] makes exactly one write, to [wsB]: the
    inbound fields without [to], with [from] stamped as [A] (whatever
    the client put there) and [roomId] set to [r].  The type field and
    every payload field are passed on as received. *)
Theorem relay_forwards_envelope (w : World) (wsA wsB : chan) (A B : UUID)
    (msg : dict) (e : env) (r : string) :
  _connections w !! B = Some wsB →
  msg_type_of msg ∈ recognized →
  to_id_of msg = Some B →
  room_id_of msg = r →
  ∃ w' envelope,
    iteration w wsA A (Text (JsonText (JDict msg))) e = (w', Reading)
    ∧ sent w' = (sent w ++ [(wsB, envelope)])%list
    ∧ _connections w' = _connections w
    ∧ envelope
      = <["roomId" := JStr r]> (<["from" := JStr (Uuid.to_str A)]> (delete "to" msg))
    ∧ envelope !! "type" = msg !! "type"
    ∧ envelope !! "from" = Some (JStr (Uuid.to_str A))
    ∧ envelope !! "roomId" = Some (JStr r)
    ∧ envelope !! "to" = None
    ∧ ∀ k, k ∉ ["to"; "from"; "roomId"] → envelope !! k = msg !! k.
Proof.
  intros HB Ht Hto <-.
  exists (send_text (bookkept w A B msg e) wsB (forward_of msg A (room_id_of msg))),
         (forward_of msg A (room_id_of msg)).
  split.
  { apply iteration_continue. by rewrite (pass_routed _ _ _ _ _ _ Ht Hto), HB. }
  split; [done|]. split; [done|]. split; [apply forward_of_delete|].
  split; [|split; [|split; [|split]]].
  - apply forward_of_other. apply (bool_decide_unpack _). by vm_compute.
  - apply forward_of_from.
  - apply forward_of_roomId.
  - apply forward_of_to.
  - apply forward_of_other.
Qed.

Lemma touch_best_effort_raises e db room caller callee ev call :
  db_raises e = Some call →
  touch_best_effort e db room caller callee ev = db.
Proof.
  unfold touch_best_effort, _touch_call_session, query_first_active, commit.
  intros ->. destruct call; simpl; [done|].
  by destruct (list_find _ db) as [[i s]|].
Qed.

(** C7.  For a routed message, a pass in which a persistence call
    raises ends like the pass in which none does: the session goes on
    reading, the same single message is written to the same channel
    (the envelope for a registered target, [peer_offline] to the
    sender otherwise), and the registry is the same.  The failed
    update leaves the call sessions as they were. *)
Theorem persistence_failure_swallowed (w : World) (ws : chan) (u to_id : UUID)
    (msg : dict) (t : Z) (call : db_call) :
  msg_type_of msg ∈ recognized →
  to_id_of msg = Some to_id →
  let frame := Text (JsonText (JDict msg)) in
  let ok := iteration w ws u frame {| now := t; db_raises := None |} in
  let ko := iteration w ws u frame {| now := t; db_raises := Some call |} in
  ko.2 = Reading ∧ ok.2 = Reading
  ∧ sent ko.1 = sent ok.1
  ∧ _connections ko.1 = _connections ok.1
  ∧ call_sessions ko.1 = call_sessions w
  ∧ sent ko.1
    = (sent w ++ [match _connections w !! to_id with
                  | Some peer => (peer, forward_of msg u (room_id_of msg))
                  | None => (ws, peer_offline to_id (room_id_of msg))
                  end])%list.
Proof.
  intros Ht Hto frame ok ko. subst ok ko frame.
  rewrite !(iteration_continue _ _ _ _ _ _ (pass_routed _ _ _ _ _ _ Ht Hto)).
  simpl. unfold bookkept.
  rewrite (touch_best_effort_raises {| now := t; db_raises := Some call |}
             _ _ _ _ _ call eq_refl).
  by destruct (_connections w !! to_id).
Qed.

(** C9.  When [roomId] is absent or blank the room is ["default"]:
    that is the room of the call-session update, of the forwarded
    envelope and of the [peer_offline] notice. *)
Theorem blank_room_defaults (w : World) (ws : chan) (u to_id : UUID)
    (msg : dict) (e : env) :
  (msg !! "roomId" = None
   ∨ ∃ s, msg !! "roomId" = Some (JStr s) ∧ Py.blank s = true) →
  room_id_of msg = "default"
  ∧ (msg_type_of msg ∈ recognized → to_id_of msg = Some to_id →
     let w1 := with_call_sessions w
                 (touch_best_effort e (call_sessions w) "default" u to_id
                    (msg_type_of msg)) in
     iteration w ws u (Text (JsonText (JDict msg))) e
     = (match _connections w !! to_id with
        | Some peer =>
            send_text w1 peer
              (<["roomId" := JStr "default"]>
                 (<["from" := JStr (Uuid.to_str u)]> (delete "to" msg)))
        | None => send_text w1 ws (peer_offline to_id "default")
        end, Reading)).
Proof.
  intros Hroom.
  assert (Hr : room_id_of msg = "default").
  { destruct Hroom as [H|(s & H & Hs)];
      [by apply room_id_of_missing | by eapply room_id_of_blank]. }
  split; [done|]. intros Ht Hto w1.
  rewrite (iteration_continue _ _ _ _ _ _ (pass_routed _ _ _ _ _ _ Ht Hto)).
  unfold bookkept. rewrite forward_of_delete, Hr. done.
Qed.


(** *** Call sessions *)

Lemma touch_call_session_Some e db room caller callee ev db' :
  _touch_call_session e db room caller callee ev = Some db' →
  (list_find (is_active_in room) db = None
   ∧ db' = (db ++ [new_session e room caller callee ev])%list)
  ∨ (∃ i s, list_find (is_active_in room) db = Some (i, s)
            ∧ db' = <[i := touched e s ev]> db).
Proof.
  unfold _touch_call_session, query_first_active.
  case_bool_decide; simpl; [done|].
  destruct (list_find _ db) as [[i s]|]; intros [= <-]; [right|left]; eauto.
Qed.

Lemma touched_keeps e s ev :
  Models.room_id (touched e s ev) = Models.room_id s
  ∧ Models.caller_user_id (touched e s ev) = Models.caller_user_id s
  ∧ Models.callee_user_id (touched e s ev) = Models.callee_user_id s
  ∧ Models.started_at (touched e s ev) = Models.started_at s.
Proof. done. Qed.

Lemma touched_active e s ev :
  Models.active (touched e s ev) = true → Models.active s = true.
Proof. simpl. by destruct (String.eqb ev "hangup"). Qed.

Lemma touch_preserves_one_active e db room caller callee ev db' :
  _touch_call_session e db room caller callee ev = Some db' →
  one_active_per_room db → one_active_per_room db'.
Proof.
  intros [[Hnone ->]|(i0 & s & Hfind & ->)]%touch_call_session_Some Hinv.
  - (* a row is added: no other active row has its room *)
    assert (Hfresh : ∀ k x, db !! k = Some x → Models.active x = true →
              Models.room_id x = room → False).
    { intros k x Hk Hx Hr. apply list_find_None in Hnone.
      by apply (Forall_lookup_1 _ _ _ _ Hnone Hk). }
    intros i j s1 s2 Hi Hj A1 A2 Hr.
    apply lookup_app_Some in Hi as [Hi|[Hli Hi]];
      apply lookup_app_Some in Hj as [Hj|[Hlj Hj]].
    + by apply (Hinv i j s1 s2).
    + apply list_lookup_singleton_Some in Hj as [_ <-].
      destruct (Hfresh i s1 Hi A1). by rewrite Hr.
    + apply list_lookup_singleton_Some in Hi as [_ <-].
      destruct (Hfresh j s2 Hj A2). by rewrite <-Hr.
    + apply list_lookup_singleton_Some in Hi as [Hi _].
      apply list_lookup_singleton_Some in Hj as [Hj _]. lia.
  - (* a row is updated in place: its room stays, it can only go inactive *)
    apply list_find_Some in Hfind as (Hs & _ & _).
    intros i j s1 s2 Hi Hj A1 A2 Hr.
    apply list_lookup_insert_Some in Hi as [(<- & <- & _)|[Hi0 Hi]];
      apply list_lookup_insert_Some in Hj as [(<- & <- & _)|[Hj0 Hj]].
    + done.
    + apply touched_active in A1. by apply (Hinv i0 j s s2).
    + apply touched_active in A2. by apply (Hinv i i0 s1 s).
    + by apply (Hinv i j s1 s2).
Qed.


Lemma touch_best_effort_cases e db room caller callee ev :
  touch_best_effort e db room caller callee ev = db
  ∨ _touch_call_session e db room caller callee ev
    = Some (touch_best_effort e db room caller callee ev).
Proof.
  unfold touch_best_effort.
  destruct (_touch_call_session e db room caller callee ev) as [db'|]; simpl;
    [|by left].
  unfold commit. case_bool_decide; simpl; [by left|by right].
Qed.

(** A pass of any session keeps the table in that shape. *)
Lemma pass_one_active w ws u r e :
  one_active_per_room (call_sessions w) →
  one_active_per_room (call_sessions (iteration w ws u r e).1).
Proof.
  intros Hinv. unfold iteration, pass, loop_body.
  destruct r as [[raw|v]| |]; simpl; try done.
  destruct v; simpl; try done.
  case_bool_decide; simpl; [|done].
  destruct (to_id_of d) as [to_id|]; simpl; [|done].
  assert (one_active_per_room
            (touch_best_effort e (call_sessions w) (room_id_of d) u to_id
               (msg_type_of d))) as Hinv'.
  { destruct (touch_best_effort_cases e (call_sessions w) (room_id_of d) u to_id
                (msg_type_of d)) as [->|Hsome]; [done|].
    by eapply touch_preserves_one_active. }
  unfold manager.send_to_user. simpl.
  by destruct (_connections w !! to_id).
Qed.

(** Along any interleaving of sessions the table never holds two
    active rows for one room. *)
Lemma run_one_active evs w :
  one_active_per_room (call_sessions w) →
  one_active_per_room (call_sessions (run w evs)).
Proof.
  revert w. induction evs as [|ev evs IH]; intros w Hinv; [done|].
  apply IH. destruct ev as [ws u|ws u r e]; [done|].
  by apply pass_one_active.
Qed.

Lemma run_from_empty_one_active evs :
  one_active_per_room (call_sessions (run empty_world evs)).
Proof. apply run_one_active. by intros i j s1 s2 Hi. Qed.


(* =================================================================== *)
(** ** Further properties *)
(* =================================================================== *)

(** *** Identities as text *)

Lemma hex_value_of_hex_digit n :
  0 ≤ n < 16 → Uuid.hex_value_of (Uuid.hex_digit n) = Some n.
Proof.
  intros Hn.
  assert (n = 0 ∨ n = 1 ∨ n = 2 ∨ n = 3 ∨ n = 4 ∨ n = 5 ∨ n = 6 ∨ n = 7 ∨ n = 8
          ∨ n = 9 ∨ n = 10 ∨ n = 11 ∨ n = 12 ∨ n = 13 ∨ n = 14 ∨ n = 15) as H by lia.
  repeat (destruct H as [->|H]; [reflexivity|]). by subst.
Qed.

Lemma nibble_range n k : 0 ≤ Z.land (Z.shiftr n k) 15 < 16.
Proof.
  change 15 with (Z.ones 4). rewrite Z.land_ones by lia.
  apply Z.mod_pos_bound. lia.
Qed.

Lemma hex_digits_hex_pad k n acc :
  Uuid.hex_digits acc (Uuid.hex_pad k n)
  = Some (acc * 16 ^ Z.of_nat k + n `mod` 16 ^ Z.of_nat k).
Proof.
  revert acc. induction k as [|k IH]; intros acc.
  - simpl. f_equal. rewrite Z.mod_1_r. lia.
  - cbn [Uuid.hex_pad Uuid.hex_digits].
    rewrite hex_value_of_hex_digit by apply nibble_range.
    rewrite IH. f_equal.
    change 15 with (Z.ones 4). rewrite Z.land_ones by lia.
    rewrite Z.shiftr_div_pow2 by lia.
    rewrite Z.pow_mul_r by lia. change (2 ^ 4) with 16.
    rewrite Nat2Z.inj_succ, Z.pow_succ_r by lia.
    rewrite (Z.mul_comm 16 (16 ^ Z.of_nat k)).
    rewrite Z.rem_mul_r by lia. lia.
Qed.

Lemma uuid_char_digit n k : uuid_char (Uuid.hex_digit (Z.land (Z.shiftr n k) 15)).
Proof. right. eexists. split; [apply nibble_range|done]. Qed.

Lemma hex_digit_not n k (x : ascii) :
  Uuid.hex_value_of x = None → Uuid.hex_digit (Z.land (Z.shiftr n k) 15) ≠ x.
Proof.
  intros Hx <-. by rewrite hex_value_of_hex_digit in Hx by apply nibble_range.
Qed.

Lemma uuid_char_not c (x : ascii) :
  uuid_char c → x ≠ "-"%char → Uuid.hex_value_of x = None → c ≠ x.
Proof.
  intros [->|(n & Hn & ->)] Hd Hx; [done|].
  intros <-. by rewrite hex_value_of_hex_digit in Hx by done.
Qed.

Lemma replace_from_no_head c0 old' new s :
  Forall (λ c, c ≠ c0) (list_ascii_of_string s) →
  Py.replace_from (String c0 old') new O s = s.
Proof.
  induction s as [|c s IH]; [done|]. intros [Hc Hs]%Forall_cons.
  cbn [Py.replace_from String.prefix].
  destruct (ascii_dec c0 c) as [->|_]; [done|]. by rewrite IH.
Qed.

Lemma lstrip_chars_keep drop l :
  (∀ c l', l = c :: l' → drop c = false) → lstrip_chars drop l = l.
Proof. destruct l as [|c l]; [done|]. intros H. simpl. by rewrite (H c l). Qed.

Lemma strip_chars_none drop s :
  Forall (λ c, drop c = false) (list_ascii_of_string s) →
  Py.strip_chars drop s = s.
Proof.
  intros H. unfold strip_chars.
  rewrite (lstrip_chars_keep drop (list_ascii_of_string s)).
  2:{ intros c l' Heq. rewrite Heq in H. by apply Forall_cons in H as [? _]. }
  rewrite lstrip_chars_keep.
  2:{ intros c l' Heq. apply Forall_rev in H. rewrite Heq in H.
      by apply Forall_cons in H as [? _]. }
  by rewrite rev_involutive, string_of_list_ascii_of_string.
Qed.

Lemma remove_dash_digit c s :
  c ≠ "-"%char → Py.replace "-" "" (String c s) = String c (Py.replace "-" "" s).
Proof.
  intros Hc. unfold Py.replace. cbn [Py.replace_from String.prefix].
  by destruct (ascii_dec "-" c) as [<-|_].
Qed.

Lemma remove_dash_dash s :
  Py.replace "-" "" (String "-" s) = Py.replace "-" "" s.
Proof.
  unfold Py.replace. cbn [Py.replace_from String.prefix].
  destruct (ascii_dec "-" "-"); [|done]. by destruct s.
Qed.

Lemma to_str_chars u : Forall uuid_char (list_ascii_of_string (Uuid.to_str u)).
Proof.
  cbv beta iota zeta
    delta [Uuid.to_str Uuid.hex_pad String.substring String.append list_ascii_of_string].
  repeat (apply Forall_cons; split; [first [by left | apply uuid_char_digit]|]).
  apply Forall_nil_2.
Qed.

Lemma to_str_no_dash u : Py.replace "-" "" (Uuid.to_str u) = Uuid.hex_pad 32 u.
Proof.
  cbv beta iota zeta delta [Uuid.to_str Uuid.hex_pad String.substring String.append].
  repeat first
    [ rewrite remove_dash_dash
    | rewrite remove_dash_digit by (by apply hex_digit_not) ].
  reflexivity.
Qed.

Lemma hex_pad_length k n : String.length (Uuid.hex_pad k n) = k.
Proof. induction k as [|k IH]; simpl; congruence. Qed.

Lemma to_str_canonical u :
  Py.replace "-" ""
    (Py.strip_set "{}" (Py.replace "uuid:" "" (Py.replace "urn:" "" (Uuid.to_str u))))
  = Uuid.hex_pad 32 u.
Proof.
  pose proof (to_str_chars u) as Hchars.
  unfold Py.replace at 2 3.
  rewrite (replace_from_no_head "u" "rn:" "" (Uuid.to_str u)).
  2:{ eapply Forall_impl; [exact Hchars|]. intros c Hc. by apply uuid_char_not. }
  rewrite (replace_from_no_head "u" "uid:" "" (Uuid.to_str u)).
  2:{ eapply Forall_impl; [exact Hchars|]. intros c Hc. by apply uuid_char_not. }
  unfold Py.strip_set. rewrite strip_chars_none.
  2:{ eapply Forall_impl; [exact Hchars|]. intros c Hc. simpl.
      apply bool_decide_eq_false.
      intros Hin. apply elem_of_cons in Hin as [Heq|Hin].
      { by apply (uuid_char_not c "{"%char Hc). }
      apply elem_of_cons in Hin as [Heq|Hin].
      { by apply (uuid_char_not c "}"%char Hc). }
      by apply elem_of_nil in Hin. }
  apply to_str_no_dash.
Qed.

Lemma plain_int16_hex_pad u :
  0 ≤ u < 2 ^ 128 → Uuid.plain_int16 (Uuid.hex_pad 32 u) = Some u.
Proof.
  intros Hu.
  transitivity (Uuid.hex_digits 0 (Uuid.hex_pad 32 u)); [reflexivity|].
  rewrite hex_digits_hex_pad. f_equal.
  change (16 ^ Z.of_nat 32) with (2 ^ 128). rewrite Z.mod_small by lia. lia.
Qed.

Lemma of_hex_to_str u :
  reads_plain_hex → 0 ≤ u < 2 ^ 128 → Uuid.of_hex int16 (Uuid.to_str u) = Some u.
Proof.
  intros Hplain Hu. unfold Uuid.of_hex. cbv zeta.
  rewrite !to_str_canonical, hex_pad_length.
  rewrite (Hplain _ _ (plain_int16_hex_pad u Hu)).
  change (Z.shiftl 1 128) with (2 ^ 128). simpl negb. cbv iota.
  destruct (Z.leb_spec 0 u); [|lia]. destruct (Z.ltb_spec u (2 ^ 128)); [done|lia].
Qed.

(** *** [strip] and [replace] *)

Lemma list_ascii_of_string_app s1 s2 :
  list_ascii_of_string (s1 ++ s2)
  = (list_ascii_of_string s1 ++ list_ascii_of_string s2)%list.
Proof. induction s1 as [|c s1 IH]; simpl; [done|]. by rewrite IH. Qed.

Lemma string_of_list_ascii_length l :
  String.length (string_of_list_ascii l) = List.length l.
Proof. induction l as [|c l IH]; simpl; congruence. Qed.

Lemma list_ascii_of_string_length s :
  List.length (list_ascii_of_string s) = String.length s.
Proof. induction s as [|c s IH]; simpl; congruence. Qed.

Lemma lstrip_chars_split drop l :
  ∃ d, l = (d ++ lstrip_chars drop l)%list ∧ forallb drop d = true.
Proof.
  induction l as [|c l (d & Hl & Hd)]; [by exists []|]. simpl.
  destruct (drop c) eqn:Hc; [|by exists []].
  exists (c :: d). simpl. rewrite Hc, Hd. split; [by f_equal|done].
Qed.

Lemma lstrip_chars_head drop l c t :
  lstrip_chars drop l = c :: t → drop c = false.
Proof.
  induction l as [|c0 l IH]; simpl; [done|].
  destruct (drop c0) eqn:Hc; [done|]. by intros [= <- _].
Qed.

Lemma lstrip_chars_idemp drop l :
  lstrip_chars drop (lstrip_chars drop l) = lstrip_chars drop l.
Proof.
  destruct (lstrip_chars drop l) as [|c t] eqn:H; [done|].
  simpl. by rewrite (lstrip_chars_head _ _ _ _ H).
Qed.

Lemma lstrip_chars_length drop l :
  (List.length (lstrip_chars drop l) ≤ List.length l)%nat.
Proof.
  destruct (lstrip_chars_split drop l) as (d & Hl & _).
  rewrite Hl at 2. rewrite length_app. lia.
Qed.

Lemma lstrip_chars_app_all drop pre l :
  forallb drop pre = true →
  lstrip_chars drop (pre ++ l) = lstrip_chars drop l.
Proof.
  induction pre as [|c pre IH]; simpl; [done|].
  intros [Hc Hpre]%andb_true_iff. rewrite Hc. auto.
Qed.

Lemma lstrip_chars_app_keep drop l post :
  lstrip_chars drop l ≠ [] →
  lstrip_chars drop (l ++ post) = (lstrip_chars drop l ++ post)%list.
Proof.
  induction l as [|c l IH]; simpl; [done|].
  destruct (drop c); [exact IH|done].
Qed.

Lemma forallb_rev {A} (f : A → bool) l : forallb f (rev l) = forallb f l.
Proof.
  induction l as [|x l IH]; simpl; [done|].
  rewrite forallb_app, IH. simpl. rewrite andb_true_r. apply andb_comm.
Qed.

(** Blank padding around a string does not change what [strip] gives. *)
Lemma strip_chars_padding drop pre core post :
  forallb drop (list_ascii_of_string pre) = true →
  forallb drop (list_ascii_of_string post) = true →
  strip_chars drop (pre ++ core ++ post) = strip_chars drop core.
Proof.
  intros Hpre Hpost. unfold strip_chars.
  rewrite !list_ascii_of_string_app, lstrip_chars_app_all by done.
  destruct (lstrip_chars drop (list_ascii_of_string core)) as [|c t] eqn:Hcore.
  - destruct (lstrip_chars_split drop (list_ascii_of_string core)) as (d & Hl & Hd).
    rewrite Hcore, app_nil_r in Hl. rewrite Hl, lstrip_chars_app_all by done.
    by rewrite (lstrip_chars_all _ _ Hpost).
  - rewrite lstrip_chars_app_keep by by rewrite Hcore.
    rewrite Hcore, rev_app_distr, lstrip_chars_app_all; [done|].
    by rewrite forallb_rev.
Qed.

Lemma strip_chars_idemp drop s :
  strip_chars drop (strip_chars drop s) = strip_chars drop s.
Proof.
  unfold strip_chars. rewrite list_ascii_of_string_of_list_ascii.
  set (m := lstrip_chars drop (list_ascii_of_string s)).
  set (n := lstrip_chars drop (rev m)).
  assert (Hn : lstrip_chars drop n = n) by apply lstrip_chars_idemp.
  assert (Hr : lstrip_chars drop (rev n) = rev n).
  { destruct (rev n) as [|c t] eqn:Hrev; [done|].
    destruct (lstrip_chars_split drop (rev m)) as (d & Hl & _). fold n in Hl.
    apply (f_equal (@rev ascii)) in Hl.
    rewrite rev_involutive, rev_app_distr, Hrev in Hl.
    simpl. by rewrite (lstrip_chars_head drop (list_ascii_of_string s) c (t ++ rev d)). }
  by rewrite Hr, rev_involutive, Hn.
Qed.

Lemma strip_chars_length drop s :
  (String.length (strip_chars drop s) ≤ String.length s)%nat.
Proof.
  unfold strip_chars.
  rewrite string_of_list_ascii_length, length_rev.
  etrans; [apply lstrip_chars_length|]. rewrite length_rev.
  etrans; [apply lstrip_chars_length|]. by rewrite list_ascii_of_string_length.
Qed.

Lemma replace_from_length old skip s :
  (String.length (Py.replace_from old "" skip s) ≤ String.length s)%nat.
Proof.
  revert skip. induction s as [|c s IH]; intros skip; [done|].
  cbn [Py.replace_from]. destruct skip as [|k].
  - destruct (String.prefix old (String c s)); simpl.
    + specialize (IH (Nat.pred (String.length old))).
      change ("" ++ ?x) with x. lia.
    + specialize (IH O). lia.
  - specialize (IH k). simpl. lia.
Qed.

(** Fewer than 32 characters never make a UUID, whatever [int] does. *)
Lemma of_hex_short hex :
  (String.length hex < 32)%nat → Uuid.of_hex int16 hex = None.
Proof.
  intros Hlen. unfold Uuid.of_hex. cbv zeta.
  set (h := Py.replace "-" "" _).
  assert (String.length h ≤ String.length hex)%nat as Hh.
  { unfold h, Py.replace, Py.strip_set.
    etrans; [apply replace_from_length|].
    etrans; [apply strip_chars_length|].
    etrans; [apply replace_from_length|]. apply replace_from_length. }
  destruct (Nat.eqb_spec (String.length h) 32) as [Heq|_]; [lia|done].
Qed.

(** X9.  An identity printed by [str] is read back by [_get_uuid] as
    the same identity (for an [int] that reads plain hexadecimal
    digits): so are the [from] of a forwarded envelope and the [to] of a
    [peer_offline] notice. *)
Theorem uuid_text_round_trip (u : UUID) :
  reads_plain_hex → 0 ≤ u < 2 ^ 128 →
  _get_uuid (JStr (Uuid.to_str u)) = Some u
  ∧ (∀ msg room, _get_uuid (Py.get (forward_of msg u room) "from") = Some u)
  ∧ (∀ room, to_id_of (peer_offline u room) = Some u).
Proof.
  intros Hplain Hu.
  assert (H : _get_uuid (JStr (Uuid.to_str u)) = Some u)
    by by apply of_hex_to_str.
  split; [done|]. split.
  - intros msg room. unfold Py.get. by rewrite forward_of_from.
  - intros room. unfold to_id_of, Py.get, peer_offline.
    by rewrite lookup_insert_ne, lookup_insert_eq.
Qed.

(** X10.  Answering to the [from] of a received envelope reaches its
    sender: when [reply] carries as [to] the [from] that the relay
    stamped for [A], and [A] is registered, the reply is written to
    [A]'s channel. *)
Theorem reply_reaches_sender (w : World) (wsA wsB : chan) (A B : UUID)
    (msg reply : dict) (room : string) (e : env) :
  reads_plain_hex → 0 ≤ A < 2 ^ 128 →
  _connections w !! A = Some wsA →
  msg_type_of reply ∈ recognized →
  reply !! "to" = forward_of msg A room !! "from" →
  iteration w wsB B (Text (JsonText (JDict reply))) e
  = (send_text (bookkept w B A reply e) wsA
       (forward_of reply B (room_id_of reply)), Reading).
Proof.
  intros Hplain HA Hreg Ht Hto.
  assert (Hid : to_id_of reply = Some A).
  { unfold to_id_of, Py.get. rewrite Hto, forward_of_from. simpl.
    by apply of_hex_to_str. }
  by rewrite (iteration_continue _ _ _ _ _ _ (pass_routed _ _ _ _ _ _ Ht Hid)), Hreg.
Qed.

(** X11.  A [to] whose text has fewer than 32 characters (a missing
    [to], [null], a boolean, an empty or short string, a small number)
    is no identity, whatever [int] accepts; with a recognized type the
    message is answered with the invalid-to error. *)
Theorem short_to_rejected (w : World) (ws : chan) (u : UUID) (msg : dict) (e : env) :
  (String.length (Py.str repr (Py.get msg "to")) < 32)%nat →
  to_id_of msg = None
  ∧ (msg_type_of msg ∈ recognized →
     iteration w ws u (Text (JsonText (JDict msg))) e
     = (send_text w ws error_invalid_to, Reading)).
Proof.
  intros Hlen.
  assert (Hto : to_id_of msg = None) by by apply of_hex_short.
  split; [done|]. intros Ht. by apply iteration_continue, pass_invalid_to.
Qed.

(** X12.  The type is matched after trimming but forwarded as sent: a
    recognized type with blanks around it is extracted as the bare
    type, while the envelope carries the padded text. *)
Theorem padded_type_recognized (msg : dict) (pre t post : string) :
  msg !! "type" = Some (JStr (pre ++ t ++ post)) →
  Py.blank pre = true → Py.blank post = true →
  t ∈ recognized →
  msg_type_of msg = t
  ∧ ∀ u room, forward_of msg u room !! "type" = Some (JStr (pre ++ t ++ post)).
Proof.
  intros Hmsg Hpre Hpost Ht. split.
  - unfold msg_type_of, Py.get, Py.or_. rewrite Hmsg. simpl.
    assert (String.eqb (pre ++ t ++ post) "" = false) as ->.
    { unfold recognized in Ht.
      repeat (apply elem_of_cons in Ht as [->|Ht]; [by destruct pre|]).
      by apply elem_of_nil in Ht. }
    simpl. unfold Py.strip. rewrite strip_chars_padding by done.
    unfold recognized in Ht.
    repeat (apply elem_of_cons in Ht as [->|Ht]; [reflexivity|]).
    by apply elem_of_nil in Ht.
  - intros u room. rewrite forward_of_other; [done|].
    apply (bool_decide_unpack _). by vm_compute.
Qed.

(** *** The registry, again *)

Lemma world_eq (w1 w2 : World) :
  _connections w1 = _connections w2 → sent w1 = sent w2 →
  call_sessions w1 = call_sessions w2 → w1 = w2.
Proof. destruct w1, w2. simpl. by intros -> -> ->. Qed.

(** X1.  The last registration wins: registering [u] on [ws1] and then
    on [ws2] is the same as registering it on [ws2] alone, and a message
    for [u] is then written to [ws2] and reported delivered. *)
Theorem last_registered_wins (w : World) (u : UUID) (ws1 ws2 : chan) (m : dict) :
  manager.connect (manager.connect w u ws1) u ws2 = manager.connect w u ws2
  ∧ manager.send_to_user (manager.connect (manager.connect w u ws1) u ws2) u m
    = (send_text (manager.connect w u ws2) ws2 m, true).
Proof.
  assert (H : manager.connect (manager.connect w u ws1) u ws2 = manager.connect w u ws2).
  { apply world_eq; try done. simpl. apply insert_insert_eq. }
  split; [done|]. rewrite H. unfold manager.send_to_user.
  by rewrite connect_lookup.
Qed.

(** X2.  Registering or unregistering [u] does not change where the
    messages for another user go, nor whether they are delivered. *)
Theorem registry_frame (w : World) (u v : UUID) (ws : chan) (m : dict) :
  u ≠ v →
  manager.send_to_user (manager.connect w u ws) v m
  = (let '(w', delivered) := manager.send_to_user w v m in
     (manager.connect w' u ws, delivered))
  ∧ manager.send_to_user (manager.disconnect w u) v m
    = (let '(w', delivered) := manager.send_to_user w v m in
       (manager.disconnect w' u, delivered)).
Proof.
  intros Hne. unfold manager.send_to_user. split.
  - replace (_connections (manager.connect w u ws) !! v) with (_connections w !! v)
      by (symmetry; by apply lookup_insert_ne).
    by destruct (_connections w !! v).
  - replace (_connections (manager.disconnect w u) !! v) with (_connections w !! v)
      by (symmetry; by apply lookup_delete_ne).
    by destruct (_connections w !! v).
Qed.

(** X3.  Unregistering undoes registering: for an identity that was not
    registered, [connect] followed by [disconnect] gives back the world
    as it was; and [disconnect] twice is [disconnect] once. *)
Theorem register_unregister_restores (w : World) (u : UUID) (ws : chan) :
  _connections w !! u = None →
  manager.disconnect (manager.connect w u ws) u = w
  ∧ manager.disconnect (manager.disconnect w u) u = manager.disconnect w u.
Proof.
  intros Habs. split; apply world_eq; try done; simpl.
  - rewrite delete_insert_eq. by apply delete_id.
  - apply delete_id, lookup_delete_eq.
Qed.

(** *** Whole sessions *)

Lemma pass_registry w ws u r e :
  match pass w ws u r e with
  | Continue w' | Raise _ w' => _connections w' = _connections w
  end.
Proof.
  unfold pass, loop_body. destruct r as [[raw|v]| |]; simpl; try done.
  destruct v; simpl; try done.
  case_bool_decide; simpl; [|done].
  destruct (to_id_of d) as [to_id|]; simpl; [|done].
  unfold manager.send_to_user. simpl. by destruct (_connections w !! to_id).
Qed.

Lemma while_true_registry w ws u script :
  match while_true w ws u script with
  | Continue w' | Raise _ w' => _connections w' = _connections w
  end.
Proof.
  revert w. induction script as [|[r e] script IH]; intros w; simpl; [done|].
  pose proof (pass_registry w ws u r e) as Hp.
  destruct (pass w ws u r e) as [w1|ex w1]; [|done].
  specialize (IH w1). destruct (while_true w1 ws u script); congruence.
Qed.

(** X4.  A session only ever touches its own entry of the registry:
    while it reads, the registry is the one it started from with its
    own registration added; once it has left, with its own entry
    removed.  The entry of any other user is as before. *)
Theorem session_keeps_other_entries (w : World) (ws : chan) (u v : UUID)
    (script : list (received * env)) :
  u ≠ v →
  let '(w', st) := signaling_loop w ws u script in
  _connections w' !! v = _connections w !! v
  ∧ _connections w'
    = match st with
      | Reading => <[u := ws]> (_connections w)
      | _ => delete u (_connections w)
      end.
Proof.
  intros Hne. unfold signaling_loop.
  pose proof (while_true_registry (manager.connect w u ws) ws u script) as Hreg.
  destruct (while_true (manager.connect w u ws) ws u script) as [w1|ex w1]; simpl.
  - rewrite Hreg. simpl. split; [by apply lookup_insert_ne|done].
  - rewrite Hreg. simpl. rewrite delete_insert_eq.
    split; [by apply lookup_delete_ne|by destruct ex].
Qed.

(** X5.  One pass writes at most one message, after those already
    written, and only to the sender's own channel or to the channel
    registered for the identity the message is addressed to. *)
Theorem pass_writes_at_most_once (w : World) (ws : chan) (u : UUID)
    (r : received) (e : env) :
  ∃ new,
    sent (iteration w ws u r e).1 = (sent w ++ new)%list
    ∧ (List.length new ≤ 1)%nat
    ∧ ∀ ch m, (ch, m) ∈ new →
        ch = ws
        ∨ ∃ msg to_id, r = Text (JsonText (JDict msg))
                       ∧ to_id_of msg = Some to_id
                       ∧ _connections w !! to_id = Some ch
                       ∧ m = forward_of msg u (room_id_of msg).
Proof.
  unfold iteration, pass, loop_body.
  destruct r as [[raw|v]| |]; simpl;
    try (exists []; rewrite app_nil_r; split; [done|]; split; [simpl; lia|];
         by intros ch m ?%elem_of_nil).
  destruct v; simpl;
    try (exists []; rewrite app_nil_r; split; [done|]; split; [simpl; lia|];
         by intros ch m ?%elem_of_nil).
  case_bool_decide; simpl.
  - destruct (to_id_of d) as [to_id|] eqn:Hto; simpl.
    + unfold manager.send_to_user. simpl.
      destruct (_connections w !! to_id) as [peer|] eqn:Hpeer; simpl.
      * eexists [_]. split; [done|]. split; [simpl; lia|].
        intros ch m [= -> ->]%list_elem_of_singleton. right. by exists d, to_id.
      * eexists [_]. split; [done|]. split; [simpl; lia|].
        intros ch m [= -> ->]%list_elem_of_singleton. by left.
    + eexists [_]. split; [done|]. split; [simpl; lia|].
      intros ch m [= -> ->]%list_elem_of_singleton. by left.
  - eexists [_]. split; [done|]. split; [simpl; lia|].
    intros ch m [= -> ->]%list_elem_of_singleton. by left.
Qed.

(** X6.  Frames that are not JSON leave no trace: after any number of
    them the session is still reading and the world is the one right
    after registration. *)
Theorem not_json_script_ignored (w : World) (ws : chan) (u : UUID)
    (script : list (received * env)) :
  Forall (λ re, ∃ raw, re.1 = Text (NotJson raw)) script →
  signaling_loop w ws u script = (manager.connect w u ws, Reading).
Proof.
  unfold signaling_loop. generalize (manager.connect w u ws). clear w.
  induction script as [|[r e] script IH]; intros w Hall; [done|].
  apply Forall_cons in Hall as [[raw Hr] Hall]. simpl in Hr. subst r.
  simpl. by apply IH.
Qed.

(** X7.  Messages from one sender to one registered recipient arrive in
    the order they were sent, one envelope each and nothing else
    written. *)
Theorem relay_preserves_order (w : World) (wsA wsB : chan) (A B : UUID)
    (msgs : list (dict * env)) :
  _connections (manager.connect w A wsA) !! B = Some wsB →
  Forall (λ me, msg_type_of me.1 ∈ recognized ∧ to_id_of me.1 = Some B) msgs →
  ∃ w',
    signaling_loop w wsA A ((λ me, (Text (JsonText (JDict me.1)), me.2)) <$> msgs)
    = (w', Reading)
    ∧ sent w'
      = (sent w ++ ((λ me, (wsB, forward_of me.1 A (room_id_of me.1))) <$> msgs))%list.
Proof.
  unfold signaling_loop.
  change (sent w) with (sent (manager.connect w A wsA)).
  generalize (manager.connect w A wsA). clear w.
  induction msgs as [|[msg e] msgs IH]; intros w HB Hall.
  - exists w. simpl. by rewrite app_nil_r.
  - apply Forall_cons in Hall as [[Ht Hto] Hall]. simpl in Ht, Hto.
    rewrite fmap_cons. cbn [while_true fst snd].
    rewrite (pass_routed _ _ _ _ _ _ Ht Hto), HB.
    set (w1 := send_text _ wsB _).
    destruct (IH w1) as (w' & Hloop & Hsent); [done|done|].
    exists w'. split; [done|]. rewrite Hsent. subst w1. simpl.
    by rewrite <-app_assoc.
Qed.

(** X8.  Once a session has left, whichever way, a message for its
    user is answered with [peer_offline] on the sender's channel and
    written nowhere else. *)
Theorem exited_peer_is_offline (w w1 : World) (wsA wsB : chan) (A B : UUID)
    (script : list (received * env)) (st : status) (msg : dict) (e : env) :
  signaling_loop w wsB B script = (w1, st) → st ≠ Reading →
  msg_type_of msg ∈ recognized → to_id_of msg = Some B →
  ∃ w2,
    iteration w1 wsA A (Text (JsonText (JDict msg))) e = (w2, Reading)
    ∧ sent w2 = (sent w1 ++ [(wsA, peer_offline B (room_id_of msg))])%list.
Proof.
  intros Hloop Hst Ht Hto.
  assert (Habs : _connections w1 !! B = None).
  { unfold signaling_loop in Hloop.
    destruct (while_true _ wsB B script) as [w'|ex w'].
    - injection Hloop as <- <-. by destruct Hst.
    - pose proof (leave_unregisters w' B ex) as [H _]. by rewrite Hloop in H. }
  eexists. split.
  - apply iteration_continue. by rewrite (pass_routed _ _ _ _ _ _ Ht Hto), Habs.
  - done.
Qed.

(** *** Call sessions along a run *)

Lemma evolves_refl s : evolves s s.
Proof. by repeat split. Qed.

Lemma evolves_trans s1 s2 s3 : evolves s1 s2 → evolves s2 s3 → evolves s1 s3.
Proof.
  intros (Hr & Hc & Hd & Hs & Hf) (Hr' & Hc' & Hd' & Hs' & Hf').
  repeat split; try congruence.
  intros Hact. specialize (Hf Hact). subst s2. by apply Hf'.
Qed.

Lemma touch_rows e db room caller callee ev db' :
  _touch_call_session e db room caller callee ev = Some db' →
  ∀ i s, db !! i = Some s →
    db' !! i = Some s
    ∨ (is_active_in room s ∧ db' !! i = Some (touched e s ev)).
Proof.
  intros [[Hnone ->]|(i0 & s0 & Hfind & ->)]%touch_call_session_Some i s Hi.
  - left. by apply lookup_app_l_Some.
  - apply list_find_Some in Hfind as (Hs0 & Hact & _).
    destruct (decide (i0 = i)) as [<-|Hne].
    + right. assert (s = s0) as -> by congruence. split; [done|].
      apply list_lookup_insert_eq. by eapply lookup_lt_Some.
    + left. by rewrite list_lookup_insert_ne.
Qed.

Lemma touch_rows_evolve e db room caller callee ev db' :
  _touch_call_session e db room caller callee ev = Some db' →
  ∀ i s, db !! i = Some s → ∃ s', db' !! i = Some s' ∧ evolves s s'.
Proof.
  intros Htouch i s Hi.
  destruct (touch_rows _ _ _ _ _ _ _ Htouch i s Hi) as [H|[[_ Hact] H]].
  - exists s. split; [done|apply evolves_refl].
  - exists (touched e s ev). split; [done|]. repeat split. congruence.
Qed.

Lemma iteration_rows_evolve w ws u r e i s :
  call_sessions w !! i = Some s →
  ∃ s', call_sessions (iteration w ws u r e).1 !! i = Some s' ∧ evolves s s'.
Proof.
  intros Hi.
  assert (Hsame : ∃ s', call_sessions w !! i = Some s' ∧ evolves s s')
    by (exists s; split; [done|apply evolves_refl]).
  unfold iteration, pass, loop_body.
  destruct r as [[raw|v]| |]; simpl; try done.
  destruct v; simpl; try done.
  case_bool_decide; simpl; [|done].
  destruct (to_id_of d) as [to_id|]; simpl; [|done].
  assert (∃ s', touch_best_effort e (call_sessions w) (room_id_of d) u to_id
                  (msg_type_of d) !! i = Some s' ∧ evolves s s') as Hrow.
  { destruct (touch_best_effort_cases e (call_sessions w) (room_id_of d) u to_id
                (msg_type_of d)) as [->|Hsome]; [done|].
    by eapply touch_rows_evolve. }
  unfold manager.send_to_user. simpl.
  by destruct (_connections w !! to_id).
Qed.

Lemma run_rows_evolve evs w i s :
  call_sessions w !! i = Some s →
  ∃ s', call_sessions (run w evs) !! i = Some s' ∧ evolves s s'.
Proof.
  revert w s. induction evs as [|ev evs IH]; intros w s Hi.
  - exists s. split; [done|apply evolves_refl].
  - assert (∃ s1, call_sessions (handle w ev) !! i = Some s1 ∧ evolves s s1)
      as (s1 & H1 & He1).
    { destruct ev as [ws u|ws u r e]; simpl.
      - exists s. split; [done|apply evolves_refl].
      - by apply iteration_rows_evolve. }
    destruct (IH (handle w ev) s1 H1) as (s' & H' & He').
    exists s'. split; [done|]. by eapply evolves_trans.
Qed.


(** X14.  An ended call is final: along any interleaving of sessions a
    row that is inactive stays exactly as it is. *)
Theorem ended_rows_are_final (evs : list event) (w : World) (i : nat)
    (s : CallSession) :
  call_sessions w !! i = Some s → Models.active s = false →
  call_sessions (run w evs) !! i = Some s.
Proof.
  intros Hi Hact.
  destruct (run_rows_evolve evs w i s Hi) as (s' & H' & (_ & _ & _ & _ & Hfinal)).
  by rewrite H', (Hfinal Hact).
Qed.

(** X15.  Along any interleaving of sessions no row is removed, and
    every row keeps its room, its caller, its callee and its start. *)
Theorem run_keeps_parties (evs : list event) (w : World) (i : nat)
    (s : CallSession) :
  call_sessions w !! i = Some s →
  ∃ s', call_sessions (run w evs) !! i = Some s'
        ∧ Models.room_id s' = Models.room_id s
        ∧ Models.caller_user_id s' = Models.caller_user_id s
        ∧ Models.callee_user_id s' = Models.callee_user_id s
        ∧ Models.started_at s' = Models.started_at s.
Proof.
  intros Hi.
  destruct (run_rows_evolve evs w i s Hi) as (s' & H' & (Hr & Hc & Hd & Hs & _)).
  by exists s'.
Qed.


(** *** The endpoint and its authentication *)

Lemma db_get_user_Some users user_id user :
  Auth.db_get_user users user_id = Some user →
  user ∈ users ∧ Models.id user = user_id.
Proof.
  unfold Auth.db_get_user.
  destruct (list_find _ users) as [[i x]|] eqn:Hfind; [|done].
  intros [= <-]. apply list_find_Some in Hfind as (Hx & Hid & _).
  split; [by eapply list_elem_of_lookup_2|done].
Qed.

Lemma _token_to_user_id_Some environ users token user_id :
  _token_to_user_id environ users token = Ok (Some user_id) →
  Auth._decode_token jwt_decode int16 repr environ token = Ok user_id
  ∧ ∃ user, Auth.db_get_user users user_id = Some user.
Proof.
  unfold _token_to_user_id.
  destruct (Auth._decode_token _ _ _ environ token) as [uid|[]]; [|done..].
  destruct (Auth.db_get_user users uid) as [user|] eqn:Hu; [|done].
  intros [= <-]. eauto.
Qed.

Lemma _decode_token_Ok environ token user_id :
  Auth._decode_token jwt_decode int16 repr environ token = Ok user_id →
  ∃ key payload,
    Auth._get_secret_key environ = Ok key
    ∧ jwt_decode token key [Auth._get_algorithm environ] = Some payload
    ∧ Py.truthy (Py.get payload "sub") = true
    ∧ _get_uuid (Py.get payload "sub") = Some user_id.
Proof.
  unfold Auth._decode_token.
  destruct (Auth._get_secret_key environ) as [key|r]; [|done].
  destruct (jwt_decode token key _) as [payload|] eqn:Hjwt; [|done].
  destruct (Py.truthy (Py.get payload "sub")) eqn:Hsub; simpl; [|done].
  destruct (Uuid.of_hex int16 _) as [uid|] eqn:Huuid; [|done].
  intros [= <-]. by exists key, payload.
Qed.



(** X19.  Without a secret nobody is authenticated, and not politely:
    when [JWT_SECRET] is unset, empty or blank, an empty token is still
    closed with 1008, but every other token ends in the [RuntimeError]
    of [_get_secret_key] instead of a close. *)
Theorem missing_secret_errors (environ : gmap string string)
    (users : list Models.User) (w : World) (ws : chan) (token : string)
    (script : list (received * env)) :
  Py.blank (Os.getenv_or environ "JWT_SECRET" "") = true →
  websocket_signaling environ users w ws token script
  = (w, if String.eqb token "" then Closed 1008
        else Errored (RuntimeError "JWT_SECRET is not configured.")).
Proof.
  intros Hblank. unfold websocket_signaling, _token_to_user_id, Auth._decode_token,
    Auth._get_secret_key.
  rewrite (strip_blank _ Hblank). simpl. by destruct (String.eqb token "").
Qed.


(** X21.  A secret that is returned is usable as it is: not empty and
    without blanks around it. *)
Theorem secret_key_trimmed (environ : gmap string string) (key : string) :
  Auth._get_secret_key environ = Ok key →
  key ≠ "" ∧ Py.strip key = key.
Proof.
  unfold Auth._get_secret_key.
  destruct (String.eqb_spec (Py.strip (Os.getenv_or environ "JWT_SECRET" "")) "")
    as [_|Hne]; [done|].
  intros [= <-]. split; [done|]. apply strip_chars_idemp.
Qed.

(** X22.  The default algorithm covers an unset or empty
    [JWT_ALGORITHM] only: a value made of blanks is taken, and trimmed
    to the empty algorithm. *)
Theorem blank_algorithm_is_empty (environ : gmap string string) (v : string) :
  environ !! "JWT_ALGORITHM" = Some v → v ≠ "" → Py.blank v = true →
  Auth._get_algorithm environ = "".
Proof.
  intros Hv Hne Hblank. unfold Auth._get_algorithm, Os.getenv_or, Os.getenv.
  rewrite Hv. destruct (String.eqb_spec v "") as [->|_]; [done|].
  by apply strip_blank.
Qed.

(** *** The database URL *)

Lemma prefix_app p t : String.prefix p (p ++ t) = true.
Proof.
  induction p as [|c p IH]; [by destruct t|]. simpl.
  by destruct (ascii_dec c c).
Qed.

Lemma prefix_inv p s : String.prefix p s = true → ∃ t, s = p ++ t.
Proof.
  revert s. induction p as [|c p IH]; intros s; [by exists s|].
  destruct s as [|c' s]; simpl; [done|].
  destruct (ascii_dec c c') as [<-|_]; [|done].
  intros [t ->]%IH. by exists t.
Qed.

Lemma replace_count_from_skip old new p rest :
  Py.replace_count_from old new 0 (String.length p) (p ++ rest) = rest.
Proof. induction p as [|c p IH]; simpl; [by destruct rest|done]. Qed.

(** With [count = 1] a leading occurrence is the one replaced, and the
    rest is kept as it is. *)
Lemma replace_count_leading c old new rest :
  Py.replace_count (String c old) new 1 (String c old ++ rest) = new ++ rest.
Proof.
  unfold Py.replace_count.
  pose proof (prefix_app (String c old) rest) as Hpre.
  change (String c old ++ rest) with (String c (old ++ rest)) in *.
  cbn [Py.replace_count_from]. rewrite Hpre. simpl Nat.pred.
  by rewrite replace_count_from_skip.
Qed.

(** X23.  Whatever the environment, a URL that is returned is not
    empty and never carries the [postgres://] scheme. *)
Theorem postgres_url_scheme (environ : gmap string string) (url : string) :
  Db._build_postgres_url environ = Ok url →
  url ≠ "" ∧ Py.startswith url "postgres://" = false.
Proof.
  unfold Db._build_postgres_url, Py.startswith. cbv zeta.
  set (raw := Py.strip _).
  destruct (String.eqb_spec raw "") as [_|Hraw]; simpl.
  - destruct (_ || _ || _); [done|]. intros [= <-]. by split.
  - destruct (String.prefix "postgresql+psycopg://" raw) eqn:H1; simpl.
    { intros [= <-]. split; [done|]. apply prefix_inv in H1 as [t ->]. done. }
    destruct (String.prefix "postgresql://" raw) eqn:H2; simpl.
    { intros [= <-]. split; [done|]. apply prefix_inv in H2 as [t ->]. done. }
    destruct (String.prefix "postgres://" raw) eqn:H3.
    + intros [= <-]. apply prefix_inv in H3 as [t ->].
      rewrite (replace_count_leading "p" "ostgres://" "postgresql://" t).
      by split.
    + by intros [= <-].
Qed.

(** X24.  Only the scheme is rewritten: a [POSTGRES_URL] that reads
    [postgres://rest] once trimmed becomes [postgresql://rest], with
    [rest] untouched even where [postgres://] occurs again in it. *)
Theorem postgres_scheme_rewritten_once (environ : gmap string string)
    (rest : string) :
  Py.strip (Os.getenv_or environ "POSTGRES_URL" "") = "postgres://" ++ rest →
  Db._build_postgres_url environ = Ok ("postgresql://" ++ rest).
Proof.
  intros Hraw. unfold Db._build_postgres_url, Py.startswith. cbv zeta.
  rewrite Hraw.
  replace (String.prefix "postgres://" ("postgres://" ++ rest)) with true
    by (symmetry; apply prefix_app).
  rewrite (replace_count_leading "p" "ostgres://" "postgresql://" rest).
  reflexivity.
Qed.

(** *** The allowed origins *)

Lemma fromkeys_from_spec seen l x :
  x ∈ Py.fromkeys_from seen l ↔ x ∈ l ∧ x ∉ seen.
Proof.
  revert seen. induction l as [|y l IH]; intros seen; simpl.
  - split; [by intros ?%elem_of_nil|by intros [?%elem_of_nil _]].
  - case_bool_decide as Hy.
    + rewrite IH. split.
      * intros [Hx Hs]. split; [by right|done].
      * intros [Hx Hs]. split; [|done].
        apply elem_of_cons in Hx as [->|Hx]; [by destruct Hs|done].
    + split.
      * intros Hx. apply elem_of_cons in Hx as [->|Hx]; [by split; [left|]|].
        apply IH in Hx as [Hx Hs]. split; [by right|].
        intros Hin. apply Hs. by right.
      * intros [Hx Hs]. destruct (decide (x = y)) as [->|Hne]; [by left|].
        right. apply IH. split.
        -- by apply elem_of_cons in Hx as [->|Hx].
        -- intros Hin. by apply elem_of_cons in Hin as [->|Hin].
Qed.

Lemma fromkeys_from_NoDup seen l : NoDup (Py.fromkeys_from seen l).
Proof.
  revert seen. induction l as [|y l IH]; intros seen; simpl; [constructor|].
  case_bool_decide; [apply IH|]. constructor; [|apply IH].
  intros [_ Hy]%fromkeys_from_spec. apply Hy. by left.
Qed.

Lemma fromkeys_spec l x : x ∈ Py.fromkeys l ↔ x ∈ l.
Proof.
  unfold Py.fromkeys. rewrite fromkeys_from_spec.
  split; [by intros [? _]|]. intros Hx. split; [done|]. by intros ?%elem_of_nil.
Qed.

Lemma allow_origins_eq environ :
  Cors.allow_origins environ
  = ((let fo := Py.strip (Os.getenv_or environ "FRONTEND_ORIGIN" "") in
      if String.eqb fo "" then [] else [fo])
     ++ (let fos := Py.strip (Os.getenv_or environ "FRONTEND_ORIGINS" "") in
         if String.eqb fos "" then []
         else omap (λ o, if negb (String.eqb (Py.strip o) "")
                         then Some (Py.strip o) else None)
                (Py.split "," fos))
     ++ ["http://localhost:3000"; "http://127.0.0.1:3000"])%list.
Proof.
  unfold Cors.allow_origins. cbv zeta.
  destruct (String.eqb (Py.strip (Os.getenv_or environ "FRONTEND_ORIGIN" "")) "");
    destruct (String.eqb (Py.strip (Os.getenv_or environ "FRONTEND_ORIGINS" "")) "");
    simpl; try done.
  - by destruct (omap _ _).
Qed.

(** X25.  The two local origins are always allowed, so the wildcard
    fallback is never taken; the list handed to the middleware has no
    duplicates and no empty entry, and holds ["*"] only where the
    configuration spells it. *)
Theorem cors_origins (environ : gmap string string) :
  let origins := Cors.middleware_origins environ in
  "http://localhost:3000" ∈ origins
  ∧ "http://127.0.0.1:3000" ∈ origins
  ∧ NoDup origins
  ∧ ("" ∉ origins)
  ∧ ("*" ∈ origins →
     Py.strip (Os.getenv_or environ "FRONTEND_ORIGIN" "") = "*"
     ∨ ∃ o, o ∈ Py.split "," (Py.strip (Os.getenv_or environ "FRONTEND_ORIGINS" ""))
            ∧ Py.strip o = "*").
Proof.
  intros origins. subst origins. unfold Cors.middleware_origins.
  assert (Hin : ∀ x, x ∈ Cors.allow_origins environ →
            (x = Py.strip (Os.getenv_or environ "FRONTEND_ORIGIN" "") ∧ x ≠ "")
            ∨ (∃ o, o ∈ Py.split "," (Py.strip (Os.getenv_or environ "FRONTEND_ORIGINS" ""))
                    ∧ Py.strip o = x ∧ x ≠ "")
            ∨ x = "http://localhost:3000" ∨ x = "http://127.0.0.1:3000").
  { intros x. rewrite allow_origins_eq. cbv zeta.
    rewrite !elem_of_app. intros [Hx|[Hx|Hx]].
    - left. destruct (String.eqb_spec (Py.strip (Os.getenv_or environ "FRONTEND_ORIGIN" "")) "")
        as [_|Hne]; [by apply elem_of_nil in Hx|].
      by apply list_elem_of_singleton in Hx as ->.
    - right; left.
      destruct (String.eqb (Py.strip (Os.getenv_or environ "FRONTEND_ORIGINS" "")) "");
        [by apply elem_of_nil in Hx|].
      apply list_elem_of_omap in Hx as (o & Ho & Hx). exists o.
      destruct (String.eqb_spec (Py.strip o) "") as [_|Hne]; simpl in Hx; [done|].
      injection Hx as <-. done.
    - right; right.
      apply elem_of_cons in Hx as [->|Hx]; [by left|].
      apply list_elem_of_singleton in Hx as ->. by right. }
  split; [|split; [|split; [|split]]].
  - apply fromkeys_spec. rewrite allow_origins_eq, !elem_of_app.
    right; right. by left.
  - apply fromkeys_spec. rewrite allow_origins_eq, !elem_of_app.
    right; right. right. by left.
  - apply fromkeys_from_NoDup.
  - intros H%fromkeys_spec%Hin.
    by destruct H as [[_ H]|[(o & _ & _ & H)|[H|H]]].
  - intros H%fromkeys_spec%Hin.
    destruct H as [[H _]|[(o & Ho & Hs & _)|[H|H]]]; [by left|right; by exists o|done..].
Qed.

(** *** Accounts, contacts and invites *)

Lemma isspace_lower_char c : Py.isspace (Py.lower_char c) = Py.isspace c.
Proof. by destruct c as [[] [] [] [] [] [] [] []]. Qed.

Lemma lower_char_idemp c : Py.lower_char (Py.lower_char c) = Py.lower_char c.
Proof. by destruct c as [[] [] [] [] [] [] [] []]. Qed.

Lemma lower_idemp s : Py.lower (Py.lower s) = Py.lower s.
Proof. induction s as [|c s IH]; simpl; [done|]. by rewrite lower_char_idemp, IH. Qed.

Lemma list_ascii_of_string_lower s :
  list_ascii_of_string (Py.lower s) = Py.lower_char <$> list_ascii_of_string s.
Proof. induction s as [|c s IH]; simpl; [done|]. by rewrite IH. Qed.

Lemma string_of_list_ascii_lower l :
  string_of_list_ascii (Py.lower_char <$> l) = Py.lower (string_of_list_ascii l).
Proof. induction l as [|c l IH]; csimpl; [done|]. by rewrite IH. Qed.

Lemma lstrip_chars_lower l :
  lstrip_chars Py.isspace (Py.lower_char <$> l)
  = Py.lower_char <$> lstrip_chars Py.isspace l.
Proof.
  induction l as [|c l IH]; csimpl; [done|].
  rewrite isspace_lower_char. by destruct (Py.isspace c).
Qed.

Lemma rev_fmap {A B} (f : A → B) l : rev (f <$> l) = f <$> rev l.
Proof.
  induction l as [|x l IH]; csimpl; [done|]. by rewrite IH, fmap_app.
Qed.

(** Trimming and lower-casing commute. *)
Lemma strip_lower s : Py.strip (Py.lower s) = Py.lower (Py.strip s).
Proof.
  unfold Py.strip, strip_chars.
  by rewrite list_ascii_of_string_lower, lstrip_chars_lower, rev_fmap,
    lstrip_chars_lower, rev_fmap, string_of_list_ascii_lower.
Qed.

(** An address as the handlers normalize it is a fixed point of the
    normalization. *)
Lemma normalized_fixed s :
  Py.lower (Py.strip (Py.lower (Py.strip s))) = Py.lower (Py.strip s).
Proof.
  rewrite strip_lower, lower_idemp. unfold Py.strip. by rewrite strip_chars_idemp.
Qed.

Lemma scalar_one_or_none_Ok {A} (rows : list A) (o : option A) :
  Routes.scalar_one_or_none rows = Ok o →
  match o with Some row => rows = [row] | None => rows = [] end.
Proof.
  destruct rows as [|r [|r' rows]]; simpl; [by intros [= <-]..|done].
Qed.

Lemma filter_nil_not {A} (P : A → Prop) `{∀ x, Decision (P x)} (l : list A) x :
  filter P l = [] → x ∈ l → ¬ P x.
Proof.
  intros Hnil Hx HP.
  assert (x ∈ filter P l) as Hin by by apply list_elem_of_filter.
  rewrite Hnil in Hin. by apply elem_of_nil in Hin.
Qed.

Lemma filter_snoc_new {A} (P : A → Prop) `{∀ x, Decision (P x)} (l : list A) x :
  filter P l = [] → P x → filter P (l ++ [x])%list = [x].
Proof.
  intros Hnil HP. rewrite filter_app, Hnil. simpl.
  rewrite filter_cons. by destruct (decide (P x)).
Qed.

Lemma commit_Ok db db' :
  Routes.commit db = Ok db' →
  db' = db
  ∧ Routes.users_keys_ok (Routes.users db) = true
  ∧ Routes.contacts_keys_ok (Routes.users db) (Routes.contacts db) = true
  ∧ Routes.invites_keys_ok (Routes.users db) (Routes.invites db) = true.
Proof.
  unfold Routes.commit.
  destruct (_ && _ && _); simpl; [|done].
  destruct (Routes.users_keys_ok _) eqn:H1; simpl; [|done].
  destruct (Routes.contacts_keys_ok _ _) eqn:H2; simpl; [|done].
  destruct (Routes.invites_keys_ok _ _) eqn:H3; simpl; [|done].
  by intros [= <-].
Qed.

Lemma NoDup_fmap_snoc {A B} (f : A → B) (l : list A) x y :
  NoDup (f <$> (l ++ [x])%list) → y ∈ l → f y ≠ f x.
Proof.
  rewrite fmap_app. intros (_ & Hdisj & _)%NoDup_app Hy Heq.
  apply (Hdisj (f y)); [by apply list_elem_of_fmap_2|].
  rewrite Heq. simpl. by left.
Qed.




End Signaling.

(* ===================================================================== *)
(** ** The properties at work on the sample data *)
(* ===================================================================== *)

Import Sample.

Abbreviation int16 := Uuid.plain_int16.

(** Membership in a list of literals, settled by evaluation. *)
Ltac by_evaluation := apply (bool_decide_unpack _); vm_compute; exact I.

(** Alice on channel 1 and Bob on channel 2. *)
Abbreviation both_online :=
  (run int16 no_repr empty_world [Accepted 1%nat alice; Accepted 2%nat bob]).

(** C1 (counterexample).  Alice registers channel 1, then channel 2;
    the session of channel 1 disconnects.  Channel 2 is live, yet the
    lookup of Alice no longer returns it. *)
Lemma stale_disconnect_evicts_newer :
  let w := run int16 no_repr empty_world
             [Accepted 1%nat alice; Accepted 2%nat alice;
              Received 1%nat alice Disconnected calm] in
  (2 ≠ 1)%nat ∧ _connections w !! alice ≠ Some 2%nat.
Proof. split; [lia|]. vm_compute. discriminate. Qed.

(** C2 on the example of the specification: Alice's offer reaches Bob
    as [{type, from, roomId, sdp}], the forged [from] overwritten. *)
Lemma relay_forwards_envelope_witness :
  _connections both_online !! bob = Some 2%nat
  ∧ msg_type_of no_repr offer ∈ recognized
  ∧ to_id_of int16 no_repr offer = Some bob
  ∧ room_id_of no_repr offer = "r1"
  ∧ ∃ w',
      iteration int16 no_repr both_online 1%nat alice
        (Text (JsonText (JDict offer))) calm = (w', Reading)
      ∧ sent w'
        = [(2%nat, {[ "type" := JStr "offer";
                      "from" := JStr "11111111-1111-1111-1111-111111111111";
                      "roomId" := JStr "r1";
                      "sdp" := JStr "X" ]})].
Proof.
  assert (H1 : _connections both_online !! bob = Some 2%nat) by reflexivity.
  assert (H2 : msg_type_of no_repr offer ∈ recognized)
    by by_evaluation.
  assert (H3 : to_id_of int16 no_repr offer = Some bob) by reflexivity.
  assert (H4 : room_id_of no_repr offer = "r1") by reflexivity.
  do 4 (split; [assumption|]).
  destruct (relay_forwards_envelope int16 no_repr both_online 1%nat 2%nat
              alice bob offer calm "r1" H1 H2 H3 H4)
    as (w' & envelope & Hit & Hsent & _ & -> & _).
  exists w'. split; [exact Hit|]. rewrite Hsent. reflexivity.
Defined.



(** C6 on an answer to Carol, who is not connected. *)
Lemma send_to_user_delivery_witness :
  _connections both_online !! carol = None
  ∧ msg_type_of no_repr answer_to_carol ∈ recognized
  ∧ to_id_of int16 no_repr answer_to_carol = Some carol
  ∧ manager.send_to_user both_online carol answer_to_carol = (both_online, false)
  ∧ ∃ w',
      iteration int16 no_repr both_online 1%nat alice
        (Text (JsonText (JDict answer_to_carol))) calm = (w', Reading)
      ∧ sent w'
        = [(1%nat, {[ "type" := JStr "peer_offline";
                      "to" := JStr "33333333-3333-3333-3333-333333333333";
                      "roomId" := JStr "r1" ]})].
Proof.
  assert (H1 : _connections both_online !! carol = None) by reflexivity.
  assert (H2 : msg_type_of no_repr answer_to_carol ∈ recognized)
    by by_evaluation.
  assert (H3 : to_id_of int16 no_repr answer_to_carol = Some carol) by reflexivity.
  do 3 (split; [assumption|]).
  destruct (send_to_user_delivery int16 no_repr both_online carol answer_to_carol)
    as (_ & Habsent & Hloop).
  split; [exact (Habsent H1)|].
  destruct (Hloop 1%nat alice answer_to_carol calm H2 H3 H1) as (w' & Hit & Hsent & _).
  exists w'. split; [exact Hit|]. rewrite Hsent. reflexivity.
Defined.

(** C7 on Alice's offer with a commit that raises. *)
Lemma persistence_failure_swallowed_witness :
  msg_type_of no_repr offer ∈ recognized
  ∧ to_id_of int16 no_repr offer = Some bob
  ∧ (iteration int16 no_repr both_online 1%nat alice
       (Text (JsonText (JDict offer))) {| now := 7; db_raises := Some Commit |}).2
    = Reading
  ∧ sent (iteration int16 no_repr both_online 1%nat alice
            (Text (JsonText (JDict offer))) {| now := 7; db_raises := Some Commit |}).1
    = sent (iteration int16 no_repr both_online 1%nat alice
              (Text (JsonText (JDict offer))) {| now := 7; db_raises := None |}).1.
Proof.
  assert (H1 : msg_type_of no_repr offer ∈ recognized)
    by by_evaluation.
  assert (H2 : to_id_of int16 no_repr offer = Some bob) by reflexivity.
  do 2 (split; [assumption|]).
  destruct (persistence_failure_swallowed int16 no_repr both_online 1%nat alice bob
              offer 7 Commit H1 H2) as (Hko & _ & Hsent & _).
  split; [exact Hko | exact Hsent].
Defined.

(** C8 on a session that relays one offer and then disconnects. *)
Lemma exit_always_unregisters_witness :
  let out := signaling_loop int16 no_repr empty_world 1%nat alice
               [(Text (JsonText (JDict offer)), calm); (Disconnected, calm)] in
  out = (out.1, Returned)
  ∧ Returned ≠ Reading
  ∧ _connections out.1 !! alice = None.
Proof.
  intros out.
  assert (H1 : out = (out.1, Returned)) by reflexivity.
  assert (H2 : Returned ≠ Reading) by discriminate.
  split; [exact H1|]. split; [exact H2|].
  exact (exit_always_unregisters int16 no_repr empty_world out.1 1%nat alice _
           Returned H1 H2).
Defined.

(** C9 on a candidate whose room is two spaces. *)
Lemma blank_room_defaults_witness :
  (blank_room !! "roomId" = None
   ∨ ∃ s, blank_room !! "roomId" = Some (JStr s) ∧ Py.blank s = true)
  ∧ msg_type_of no_repr blank_room ∈ recognized
  ∧ to_id_of int16 no_repr blank_room = Some bob
  ∧ room_id_of no_repr blank_room = "default"
  ∧ sent (iteration int16 no_repr both_online 1%nat alice
            (Text (JsonText (JDict blank_room))) calm).1
    = [(2%nat, {[ "type" := JStr "candidate";
                  "from" := JStr "11111111-1111-1111-1111-111111111111";
                  "roomId" := JStr "default" ]})]
  ∧ Models.room_id
      <$> call_sessions (iteration int16 no_repr both_online 1%nat alice
                           (Text (JsonText (JDict blank_room))) calm).1
    = ["default"].
Proof.
  assert (H : blank_room !! "roomId" = None
              ∨ ∃ s, blank_room !! "roomId" = Some (JStr s) ∧ Py.blank s = true).
  { right. exists "  ". split; reflexivity. }
  assert (H2 : msg_type_of no_repr blank_room ∈ recognized)
    by by_evaluation.
  assert (H3 : to_id_of int16 no_repr blank_room = Some bob) by reflexivity.
  do 3 (split; [assumption|]).
  destruct (blank_room_defaults int16 no_repr both_online 1%nat alice bob
              blank_room calm H) as [Hroom Hloop].
  split; [exact Hroom|].
  rewrite (Hloop H2 H3). split; reflexivity.
Defined.


(* ===================================================================== *)
(** ** The further properties on the sample deployment *)
(* ===================================================================== *)

Import Deployment.

Lemma plain_int16_reads_plain_hex : reads_plain_hex int16.
Proof. intros s v H. exact H. Defined.

Lemma alice_in_range : 0 ≤ alice < 2 ^ 128.
Proof. split; [apply Z.leb_le | apply Z.ltb_lt]; reflexivity. Defined.

(** X2: registering Carol does not divert Bob's messages. *)
Lemma registry_frame_witness :
  carol ≠ bob
  ∧ manager.send_to_user (manager.connect both_online carol 3%nat) bob offer
    = (manager.connect (send_text both_online 2%nat offer) carol 3%nat, true).
Proof.
  assert (H : carol ≠ bob) by discriminate.
  split; [exact H|].
  exact (proj1 (registry_frame both_online carol bob 3%nat offer H)).
Defined.

(** X3: Carol comes and goes. *)
Lemma register_unregister_restores_witness :
  _connections both_online !! carol = None
  ∧ manager.disconnect (manager.connect both_online carol 3%nat) carol = both_online.
Proof.
  assert (H : _connections both_online !! carol = None) by reflexivity.
  split; [exact H|].
  exact (proj1 (register_unregister_restores both_online carol 3%nat H)).
Defined.

(** X4: Alice's session, from connecting to disconnecting, never
    touches Bob's entry. *)
Lemma session_keeps_other_entries_witness :
  alice ≠ bob
  ∧ let '(w', st) :=
      signaling_loop int16 no_repr both_online 5%nat alice
        [(Text (JsonText (JDict offer)), calm); (Disconnected, calm)] in
    _connections w' !! bob = _connections both_online !! bob
    ∧ _connections w'
      = match st with
        | Reading => <[alice := 5%nat]> (_connections both_online)
        | _ => delete alice (_connections both_online)
        end.
Proof.
  assert (H : alice ≠ bob) by discriminate.
  split; [exact H|].
  exact (session_keeps_other_entries int16 no_repr both_online 5%nat alice bob
           [(Text (JsonText (JDict offer)), calm); (Disconnected, calm)] H).
Defined.

(** X6: two frames of garbage. *)
Lemma not_json_script_ignored_witness :
  Forall (λ re : received * env, ∃ raw, re.1 = Text (NotJson raw))
    [(Text (NotJson "{oops"), calm); (Text (NotJson ""), calm)]
  ∧ signaling_loop int16 no_repr empty_world 1%nat alice
      [(Text (NotJson "{oops"), calm); (Text (NotJson ""), calm)]
    = (manager.connect empty_world alice 1%nat, Reading).
Proof.
  assert (H : Forall (λ re : received * env, ∃ raw, re.1 = Text (NotJson raw))
                [(Text (NotJson "{oops"), calm); (Text (NotJson ""), calm)]).
  { repeat constructor; eexists; reflexivity. }
  split; [exact H|].
  exact (not_json_script_ignored int16 no_repr empty_world 1%nat alice _ H).
Defined.

(** X7: Alice sends Bob an offer, then a candidate. *)
Lemma relay_preserves_order_witness :
  _connections (manager.connect both_online alice 1%nat) !! bob = Some 2%nat
  ∧ Forall (λ me : dict * env,
              msg_type_of no_repr me.1 ∈ recognized
              ∧ to_id_of int16 no_repr me.1 = Some bob)
      [(offer, calm); (blank_room, calm)]
  ∧ ∃ w',
      signaling_loop int16 no_repr both_online 1%nat alice
        [(Text (JsonText (JDict offer)), calm);
         (Text (JsonText (JDict blank_room)), calm)] = (w', Reading)
      ∧ sent w'
        = [(2%nat, forward_of offer alice "r1");
           (2%nat, forward_of blank_room alice "default")].
Proof.
  assert (H1 : _connections (manager.connect both_online alice 1%nat) !! bob
               = Some 2%nat) by reflexivity.
  assert (H2 : Forall (λ me : dict * env,
                         msg_type_of no_repr me.1 ∈ recognized
                         ∧ to_id_of int16 no_repr me.1 = Some bob)
                 [(offer, calm); (blank_room, calm)]).
  { repeat constructor; simpl; first [by_evaluation | reflexivity]. }
  do 2 (split; [assumption|]).
  destruct (relay_preserves_order int16 no_repr both_online 1%nat 2%nat alice bob
              [(offer, calm); (blank_room, calm)] H1 H2) as (w' & Hloop & Hsent).
  exists w'. split; [exact Hloop|]. rewrite Hsent. reflexivity.
Defined.

(** X8: Bob has disconnected; Alice's offer comes back as
    [peer_offline]. *)
Lemma exited_peer_is_offline_witness :
  let out := signaling_loop int16 no_repr both_online 2%nat bob [(Disconnected, calm)] in
  out = (out.1, Returned)
  ∧ Returned ≠ Reading
  ∧ msg_type_of no_repr offer ∈ recognized
  ∧ to_id_of int16 no_repr offer = Some bob
  ∧ ∃ w2,
      iteration int16 no_repr out.1 1%nat alice (Text (JsonText (JDict offer))) calm
      = (w2, Reading)
      ∧ sent w2 = (sent out.1 ++ [(1%nat, peer_offline bob "r1")])%list.
Proof.
  intros out.
  assert (H1 : out = (out.1, Returned)) by reflexivity.
  assert (H2 : Returned ≠ Reading) by discriminate.
  assert (H3 : msg_type_of no_repr offer ∈ recognized) by by_evaluation.
  assert (H4 : to_id_of int16 no_repr offer = Some bob) by reflexivity.
  do 4 (split; [assumption|]).
  exact (exited_peer_is_offline int16 no_repr both_online out.1 1%nat 2%nat alice bob
           [(Disconnected, calm)] Returned offer calm H1 H2 H3 H4).
Defined.

(** X9: Alice's identity, printed and read back. *)
Lemma uuid_text_round_trip_witness :
  reads_plain_hex int16
  ∧ 0 ≤ alice < 2 ^ 128
  ∧ _get_uuid int16 no_repr (JStr "11111111-1111-1111-1111-111111111111") = Some alice.
Proof.
  split; [exact plain_int16_reads_plain_hex|]. split; [exact alice_in_range|].
  exact (proj1 (uuid_text_round_trip int16 no_repr alice
                  plain_int16_reads_plain_hex alice_in_range)).
Defined.

(** X10: Bob answers the offer he received from Alice. *)
Lemma reply_reaches_sender_witness :
  let reply : dict :=
    {[ "type" := JStr "answer"; "roomId" := JStr "r1";
       "to" := JStr "11111111-1111-1111-1111-111111111111" ]} in
  reads_plain_hex int16
  ∧ 0 ≤ alice < 2 ^ 128
  ∧ _connections both_online !! alice = Some 1%nat
  ∧ msg_type_of no_repr reply ∈ recognized
  ∧ reply !! "to" = forward_of offer alice "r1" !! "from"
  ∧ sent (iteration int16 no_repr both_online 2%nat bob
            (Text (JsonText (JDict reply))) calm).1
    = [(1%nat, {[ "type" := JStr "answer"; "roomId" := JStr "r1";
                  "from" := JStr "22222222-2222-2222-2222-222222222222" ]})].
Proof.
  intros reply.
  assert (H3 : _connections both_online !! alice = Some 1%nat) by reflexivity.
  assert (H4 : msg_type_of no_repr reply ∈ recognized) by by_evaluation.
  assert (H5 : reply !! "to" = forward_of offer alice "r1" !! "from") by reflexivity.
  split; [exact plain_int16_reads_plain_hex|]. split; [exact alice_in_range|].
  do 3 (split; [assumption|]).
  rewrite (reply_reaches_sender int16 no_repr both_online 1%nat 2%nat alice bob
             offer reply "r1" calm plain_int16_reads_plain_hex alice_in_range H3 H4 H5).
  reflexivity.
Defined.

(** X11: a message without [to]. *)
Lemma short_to_rejected_witness :
  (String.length (Py.str no_repr (Py.get no_to "to")) < 32)%nat
  ∧ msg_type_of no_repr no_to ∈ recognized
  ∧ iteration int16 no_repr both_online 1%nat alice
      (Text (JsonText (JDict no_to))) calm
    = (send_text both_online 1%nat error_invalid_to, Reading).
Proof.
  assert (H1 : (String.length (Py.str no_repr (Py.get no_to "to")) < 32)%nat)
    by (vm_compute; lia).
  assert (H2 : msg_type_of no_repr no_to ∈ recognized) by by_evaluation.
  do 2 (split; [assumption|]).
  exact (proj2 (short_to_rejected int16 no_repr both_online 1%nat alice no_to calm H1)
           H2).
Defined.

(** X12: the type [" offer"] followed by a line feed. *)
Lemma padded_type_recognized_witness :
  let lf := String (ascii_of_nat 10) "" in
  let msg : dict := {[ "type" := JStr (" " ++ "offer" ++ lf) ]} in
  msg !! "type" = Some (JStr (" " ++ "offer" ++ lf))
  ∧ Py.blank " " = true ∧ Py.blank lf = true
  ∧ "offer" ∈ recognized
  ∧ msg_type_of no_repr msg = "offer".
Proof.
  intros lf msg.
  assert (H1 : msg !! "type" = Some (JStr (" " ++ "offer" ++ lf))) by reflexivity.
  assert (H2 : Py.blank " " = true) by reflexivity.
  assert (H3 : Py.blank lf = true) by reflexivity.
  assert (H4 : "offer" ∈ recognized) by by_evaluation.
  do 4 (split; [assumption|]).
  exact (proj1 (padded_type_recognized no_repr msg " " "offer" lf H1 H2 H3 H4)).
Defined.

Lemma ongoing_alone : one_active_per_room [ongoing].
Proof.
  intros i j s1 s2 Hi Hj _ _ _.
  apply list_lookup_singleton_Some in Hi as [-> _].
  apply list_lookup_singleton_Some in Hj as [-> _]. reflexivity.
Defined.


(** A world with one ended and one ongoing call, and a busy evening. *)
Abbreviation with_history :=
  (with_call_sessions both_online [ended; ongoing]).

Abbreviation evening :=
  [Received 1%nat alice (Text (JsonText (JDict offer))) calm;
   Received 2%nat bob (Text (JsonText (JDict to_self))) calm;
   Received 1%nat alice
     (Text (JsonText (JDict (<["type" := JStr "hangup"]> offer)))) calm;
   Received 2%nat bob Disconnected calm].

(** X14: the ended call in [r0] is as it was after the evening. *)
Lemma ended_rows_are_final_witness :
  call_sessions with_history !! 0%nat = Some ended
  ∧ Models.active ended = false
  ∧ call_sessions (run int16 no_repr with_history evening) !! 0%nat = Some ended.
Proof.
  assert (H1 : call_sessions with_history !! 0%nat = Some ended) by reflexivity.
  assert (H2 : Models.active ended = false) by reflexivity.
  do 2 (split; [assumption|]).
  exact (ended_rows_are_final int16 no_repr evening with_history 0%nat ended H1 H2).
Defined.

(** X15: the call in [r1] is still Alice's call to Bob. *)
Lemma run_keeps_parties_witness :
  call_sessions with_history !! 1%nat = Some ongoing
  ∧ ∃ s', call_sessions (run int16 no_repr with_history evening) !! 1%nat = Some s'
          ∧ Models.room_id s' = "r1"
          ∧ Models.caller_user_id s' = alice
          ∧ Models.callee_user_id s' = bob
          ∧ Models.started_at s' = 900.
Proof.
  assert (H1 : call_sessions with_history !! 1%nat = Some ongoing) by reflexivity.
  split; [exact H1|].
  exact (run_keeps_parties int16 no_repr evening with_history 1%nat ongoing H1).
Defined.




(** X19: the same token where no secret is configured. *)
Lemma missing_secret_errors_witness :
  Py.blank (Os.getenv_or bare_environ "JWT_SECRET" "") = true
  ∧ websocket_signaling int16 no_repr jwt_decode bare_environ users both_online 3%nat
      alice_token []
    = (both_online, Errored (RuntimeError "JWT_SECRET is not configured.")).
Proof.
  assert (H : Py.blank (Os.getenv_or bare_environ "JWT_SECRET" "") = true)
    by reflexivity.
  split; [exact H|].
  exact (missing_secret_errors int16 no_repr jwt_decode bare_environ users both_online
           3%nat alice_token [] H).
Defined.


(** X21: the secret [" s3cret "] of the sample environment. *)
Lemma secret_key_trimmed_witness :
  Auth._get_secret_key environ = Ok "s3cret"
  ∧ "s3cret" ≠ "" ∧ Py.strip "s3cret" = "s3cret".
Proof.
  assert (H : Auth._get_secret_key environ = Ok "s3cret") by reflexivity.
  split; [exact H|].
  exact (secret_key_trimmed environ "s3cret" H).
Defined.

(** X22: an algorithm of two spaces. *)
Lemma blank_algorithm_is_empty_witness :
  bare_environ !! "JWT_ALGORITHM" = Some "  "
  ∧ "  " ≠ "" ∧ Py.blank "  " = true
  ∧ Auth._get_algorithm bare_environ = "".
Proof.
  assert (H1 : bare_environ !! "JWT_ALGORITHM" = Some "  ") by reflexivity.
  assert (H2 : "  " ≠ "") by discriminate.
  assert (H3 : Py.blank "  " = true) by reflexivity.
  do 3 (split; [assumption|]).
  exact (blank_algorithm_is_empty bare_environ "  " H1 H2 H3).
Defined.

(** X23 and X24: the URL of the sample environment. *)
Lemma postgres_url_scheme_witness :
  Db._build_postgres_url environ = Ok "postgresql://app:pw@db:5432/calls"
  ∧ "postgresql://app:pw@db:5432/calls" ≠ ""
  ∧ Py.startswith "postgresql://app:pw@db:5432/calls" "postgres://" = false.
Proof.
  assert (H : Db._build_postgres_url environ = Ok "postgresql://app:pw@db:5432/calls")
    by reflexivity.
  split; [exact H|].
  exact (postgres_url_scheme environ _ H).
Defined.

Lemma postgres_scheme_rewritten_once_witness :
  Py.strip (Os.getenv_or environ "POSTGRES_URL" "")
  = "postgres://" ++ "app:pw@db:5432/calls"
  ∧ Db._build_postgres_url environ
    = Ok ("postgresql://" ++ "app:pw@db:5432/calls").
Proof.
  assert (H : Py.strip (Os.getenv_or environ "POSTGRES_URL" "")
              = "postgres://" ++ "app:pw@db:5432/calls") by reflexivity.
  split; [exact H|].
  exact (postgres_scheme_rewritten_once environ "app:pw@db:5432/calls" H).
Defined.

(** X25: the origins of the sample environment. *)
Lemma cors_origins_witness :
  Cors.middleware_origins environ
  = ["https://a.example"; "https://b.example";
     "http://localhost:3000"; "http://127.0.0.1:3000"]
  ∧ NoDup (Cors.middleware_origins environ)
  ∧ "*" ∉ Cors.middleware_origins environ.
Proof.
  split; [reflexivity|].
  destruct (cors_origins environ) as (_ & _ & Hnodup & _ & Hstar).
  split; [exact Hnodup|].
  intros Hin. destruct (Hstar Hin) as [H|(o & Ho & Hs)]; [discriminate H|].
  vm_compute in Ho.
  repeat (apply elem_of_cons in Ho as [->|Ho]; [discriminate Hs|]).
  by apply elem_of_nil in Ho.
Defined.




